(** * Content synchronisation services of the Ceres sync tool

    A shallow embedding of [GitContentService] and
    [RainfallContentSyncService] (TypeScript, built on simple-git, fs and
    fs-extra).  The services are thin orchestration over an external
    version-control client, so the embedding keeps the code's control flow
    (try/catch, early return, mutation of the result object) in a small
    state-and-exception monad and leaves every answer of the outside world
    (git, file system, clock) to an arbitrary environment. *)

From Stdlib Require Import String Ascii List Bool Arith ZArith Lia DecimalString Eqdep_dec.
From ExtLib Require Import Structures.Monad Structures.MonadExc Structures.MonadState.
Import ListNotations MonadNotation.
Open Scope string_scope.
Open Scope monad_scope.


(** ** JavaScript values *)

(** What a [throw] or a rejected promise carries: an instance of [Error]
    with its [message], or any other value. *)
Inductive Thrown : Set :=
| ErrorObj (message : string)
| NonError.

(** [error instanceof Error ? error.message : fallback] *)
Definition messageOr (fallback : string) (error : Thrown) : string :=
  match error with
  | ErrorObj message => message
  | NonError => fallback
  end.

(** How an awaited promise (or a call that may throw) ends. *)
Inductive Settled (A : Type) : Type :=
| Fulfilled (value : A)
| Rejected (reason : Thrown).
Arguments Fulfilled {A} value.
Arguments Rejected {A} reason.

(** A [Date], as milliseconds since the epoch. *)
Definition Date : Set := Z.

(** A value of type [T | undefined]; [None] is [undefined]. *)
Definition orUndefined (T : Type) : Type := option T.

(** Truthiness of a [boolean | undefined]. *)
Definition truthy (b : orUndefined bool) : bool :=
  match b with
  | Some true => true
  | _ => false
  end.

(** [a || b] for [a : string | undefined]: the empty string and
    [undefined] are falsy. *)
Definition orElse (a : orUndefined string) (b : string) : string :=
  match a with
  | Some EmptyString => b
  | Some s => s
  | None => b
  end.

(** [String(n)] for a non-negative integer. *)
Definition showNat (n : nat) : string := NilZero.string_of_uint (Nat.to_uint n).

(** [String(s)] for [s : string | undefined], as a template literal does. *)
Definition showString (s : orUndefined string) : string :=
  match s with
  | Some s => s
  | None => "undefined"
  end.

(** White space of [String.prototype.trim] among the code units below 256:
    TAB, LF, VT, FF, CR, SP and NBSP. *)
Definition isWhiteSpace (c : ascii) : bool :=
  let n := nat_of_ascii c in
  ((9 <=? n)%nat && (n <=? 13)%nat) || (n =? 32)%nat || (n =? 160)%nat.

Fixpoint trimStart (s : string) : string :=
  match s with
  | EmptyString => EmptyString
  | String c rest => if isWhiteSpace c then trimStart rest else s
  end.

Fixpoint trimEnd (s : string) : string :=
  match s with
  | EmptyString => EmptyString
  | String c rest =>
      match trimEnd rest with
      | EmptyString => if isWhiteSpace c then EmptyString else String c EmptyString
      | kept => String c kept
      end
  end.

Definition trim (s : string) : string := trimStart (trimEnd s).

(** [s.startsWith(searchString)] *)
Fixpoint startsWith (s searchString : string) {struct searchString} : bool :=
  match searchString, s with
  | EmptyString, _ => true
  | String _ _, EmptyString => false
  | String c rest, String d rest' => Ascii.eqb d c && startsWith rest' rest
  end.

(** ** The simple-git interface (types of the external library) *)

(** A client bound to a base directory ([simpleGit(baseDir)]) or to the
    process's working directory ([simpleGit()]). *)
Record SimpleGit : Set := { baseDir : option string }.

Record FileStatusResult : Set :=
  { file_path : string; file_index : string; file_working_dir : string }.

Record StatusResult : Set :=
  { status_files : list FileStatusResult;
    status_modified : list string;
    status_created : list string;
    status_deleted : list string;
    status_not_added : list string;
    status_ahead : nat;
    status_behind : nat }.

Record PullResult : Set := { pull_files : list string }.

Record RemoteRefs : Set := { refs_fetch : string; refs_push : string }.
Record RemoteWithRefs : Set := { remote_name : string; remote_refs : RemoteRefs }.
Record RemoteWithoutRefs : Set := { remote_only_name : string }.

Record LogLine : Set :=
  { log_hash : string; log_date : string; log_message : string; log_author_name : string }.

(** [latest] is [null] when the repository has no commit. *)
Record LogResult : Set := { log_latest : option LogLine }.

(** ** Calls to the outside world *)

(** Every operation the two services ask of their external collaborators,
    with its arguments. *)
Inductive Call : Type :=
| EnsureDir (dir : string)                         (* fsExtra.ensureDir(dir) *)
| ReadFile (file encoding : string)                (* fs.readFile(file, encoding) *)
| Readdir (dir : string)                           (* fs.readdir(dir) *)
| NewSimpleGit (dir : option string)               (* simpleGit(dir) / simpleGit() *)
| Status (git : SimpleGit)                         (* git.status() *)
| Revparse (git : SimpleGit) (args : list string)  (* git.revparse(args) *)
| GetRemotes (git : SimpleGit) (verbose : bool)    (* git.getRemotes(verbose) *)
| Log (git : SimpleGit) (maxCount : nat)           (* git.log({ maxCount }) *)
| Fetch (git : SimpleGit)                          (* git.fetch() *)
| Pull (git : SimpleGit) (remote : string) (branch : orUndefined string)
| Add (git : SimpleGit) (files : string)           (* git.add(files) *)
| Commit (git : SimpleGit) (message : string)      (* git.commit(message) *)
| Push (git : SimpleGit) (remote : string) (branch : orUndefined string)
| Clone (git : SimpleGit) (repoPath localPath : string)
| SubmoduleInit (git : SimpleGit)
| SubmoduleUpdate (git : SimpleGit).

(** The type of the value a call resolves to. *)
Definition Resp (c : Call) : Type :=
  match c with
  | ReadFile _ _ => string
  | Readdir _ => list string
  | Status _ => StatusResult
  | Revparse _ _ => string
  | GetRemotes _ true => list RemoteWithRefs
  | GetRemotes _ false => list RemoteWithoutRefs
  | Log _ _ => LogResult
  | Pull _ _ _ => PullResult
  | _ => unit
  end.

(** What can be observed of a run: the calls made with their answers, the
    readings of the clock, the lines written to the console.  A trace lists
    events newest first. *)
Inductive Event : Type :=
| EvCall (c : Call) (answer : Settled (Resp c))
| EvNewDate (d : Date)
| EvConsoleLog (line : string).

Definition Trace : Type := list Event.

(** The calls of a trace, oldest first. *)
Definition calls (evs : Trace) : list Call :=
  rev (flat_map (fun e => match e with EvCall c _ => [c] | _ => [] end) evs).

(** The outside world.  Every answer may depend on everything that happened
    before it, so an [Env] stands for an arbitrary working copy, remote,
    file system and clock. *)
Record Env : Type :=
  { respond : forall c : Call, Trace -> Settled (Resp c);
    clock : Trace -> Date;                 (* new Date() *)
    toISOString : Date -> string;          (* Date.prototype.toISOString *)
    parseDate : string -> Date;            (* new Date(string) *)
    dirname : string -> string }.          (* path.dirname *)

(** ** The monad of the embedding

    A computation reads the environment and the history (what happened
    before it started), threads the mutable objects in scope ([S]), and
    settles, having added its own events (newest first).  State written and
    events produced before a throw stay, as in JavaScript. *)
Definition M (S A : Type) : Type := Env -> Trace -> S -> Settled A * S * Trace.

Definition outcome {S A} (run : Settled A * S * Trace) : Settled A := fst (fst run).
Definition stateAfter {S A} (run : Settled A * S * Trace) : S := snd (fst run).
Definition events {S A} (run : Settled A * S * Trace) : Trace := snd run.

#[global] Instance Monad_M {S} : Monad (M S) :=
  {| ret := fun A (a : A) => fun _ _ s => (Fulfilled a, s, []);
     bind := fun A B (m : M S A) (k : A -> M S B) => fun env h s =>
       match m env h s with
       | (Fulfilled a, s1, evs1) =>
           match k a env (evs1 ++ h)%list s1 with
           | (r, s2, evs2) => (r, s2, (evs2 ++ evs1)%list)
           end
       | (Rejected e, s1, evs1) => (Rejected e, s1, evs1)
       end |}.

#[global] Instance MonadExc_M {S} : MonadExc Thrown (M S) :=
  {| raise := fun A (e : Thrown) => fun _ _ s => (Rejected e, s, []);
     catch := fun A (body : M S A) (handler : Thrown -> M S A) => fun env h s =>
       match body env h s with
       | (Fulfilled a, s1, evs1) => (Fulfilled a, s1, evs1)
       | (Rejected e, s1, evs1) =>
           match handler e env (evs1 ++ h)%list s1 with
           | (r, s2, evs2) => (r, s2, (evs2 ++ evs1)%list)
           end
       end |}.

#[global] Instance MonadState_M {S} : MonadState S (M S) :=
  {| get := fun _ _ s => (Fulfilled s, s, []);
     put := fun s' => fun _ _ _ => (Fulfilled tt, s', []) |}.

(** An awaited call to the outside world. *)
Definition call {S} (c : Call) : M S (Resp c) :=
  fun env h s => let answer := respond env c h in (answer, s, [EvCall c answer]).

(** [new Date()] *)
Definition newDate {S} : M S Date :=
  fun env h s => let d := clock env h in (Fulfilled d, s, [EvNewDate d]).

(** [console.log(line)] *)
Definition consoleLog {S} (line : string) : M S unit :=
  fun _ _ s => (Fulfilled tt, s, [EvConsoleLog line]).

(** A pure function of the runtime. *)
Definition runtime {S A} (f : Env -> A) : M S A :=
  fun env _ s => (Fulfilled (f env), s, []).

(** [simpleGit(dir)]: the library refuses a base directory that does not
    exist, so the construction itself may throw. *)
Definition simpleGit {S} (dir : option string) : M S SimpleGit :=
  call (NewSimpleGit dir) ;; ret {| baseDir := dir |}.

(** A block with a local mutable object [l0] next to [this]. *)
Definition withLocal {S L A} (l0 : L) (m : M (S * L) A) : M S A :=
  fun env h s =>
    match m env h (s, l0) with
    | (r, (s', _), evs) => (r, s', evs)
    end.

(** A method of [this] called from such a block. *)
Definition onThis {S L A} (m : M S A) : M (S * L) A :=
  fun env h sl =>
    match m env h (fst sl) with
    | (r, s', evs) => (r, (s', snd sl), evs)
    end.

Definition getLocal {S L} : M (S * L) L :=
  fun _ _ sl => (Fulfilled (snd sl), sl, []).

Definition setLocal {S L} (f : L -> L) : M (S * L) unit :=
  fun _ _ sl => (Fulfilled tt, (fst sl, f (snd sl)), []).

(** The promise of [m], not yet awaited: its settlement as a value. *)
Definition promise {S A} (m : M S A) : M S (Settled A) :=
  fun env h s =>
    match m env h s with
    | (r, s', evs) => (Fulfilled r, s', evs)
    end.

(** [await p] *)
Definition await {S A} (p : Settled A) : M S A :=
  match p with
  | Fulfilled a => ret a
  | Rejected e => raise e
  end.

(** [this] as seen from a block with a local object. *)
Definition this {S L} : M (S * L) S :=
  fun _ _ sl => (Fulfilled (fst sl), sl, []).

(** [array.push(x)] *)
Definition push_back {A} (x : A) (array : list A) : list A := array ++ [x].

(** ** GitContentService *)

Module GitContentService.

Record LastCommit : Set :=
  { hash : string; message : string; author : string; date : Date }.

Record FileStatus : Set :=
  { modified : list string; added : list string;
    deleted : list string; untracked : list string }.

Record GitRepositoryInfo : Set :=
  { branch : string; remote : string; lastCommit : LastCommit; status : FileStatus }.

Record BranchDifference : Set :=
  { ahead : nat; behind : nat; upToDate : bool }.

Record Verification : Set :=
  { isValid : bool; issues : list string }.

(** The private fields of the class. *)
Record t : Set := { git : SimpleGit; repositoryPath : string }.

Definition constructor {S} (repositoryPath : string) : M S t :=
  git <- simpleGit (Some repositoryPath) ;;
  ret {| git := git; repositoryPath := repositoryPath |}.

(** [Promise.all] over the four queries: all four are issued, in the
    order of the array, and the first rejection (in that order) is the one
    the [await] throws. *)
Definition promiseAll4 {S A B C D}
    (a : M S A) (b : M S B) (c : M S C) (d : M S D) : M S (A * B * C * D) :=
  pa <- promise a ;;
  pb <- promise b ;;
  pc <- promise c ;;
  pd <- promise d ;;
  ra <- await pa ;;
  rb <- await pb ;;
  rc <- await pc ;;
  rd <- await pd ;;
  ret (ra, rb, rc, rd).

(** [remotes.find(r => r.name === 'origin')?.refs?.fetch || 'unknown'] *)
Definition originUrl (remotes : list RemoteWithRefs) : string :=
  orElse
    (option_map (fun r => refs_fetch (remote_refs r))
       (find (fun r => remote_name r =? "origin") remotes))
    "unknown".

Definition getRepositoryInfo : M t GitRepositoryInfo :=
  catch
    (self <- get ;;
     queries <- promiseAll4
       (call (Revparse (git self) ["--abbrev-ref"; "HEAD"]))
       (call (GetRemotes (git self) true))
       (call (Log (git self) 1))
       (call (Status (git self))) ;;
     let '(branch, remotes, log, status) := queries in
     let remote := originUrl remotes in
     let lastCommit := log_latest log in
     date <- match option_map log_date lastCommit with
             | None | Some EmptyString => newDate
             | Some d => runtime (fun env => parseDate env d)
             end ;;
     ret {| branch := branch;
            remote := remote;
            lastCommit :=
              {| hash := orElse (option_map log_hash lastCommit) "";
                 message := orElse (option_map log_message lastCommit) "";
                 author := orElse (option_map log_author_name lastCommit) "";
                 date := date |};
            status :=
              {| modified := status_modified status;
                 added := status_created status;
                 deleted := status_deleted status;
                 untracked := status_not_added status |} |})
    (fun error =>
       raise (ErrorObj ("Failed to get repository info: " ++ messageOr "Unknown error" error))).

Definition hasUncommittedChanges : M t bool :=
  catch
    (self <- get ;;
     status <- call (Status (git self)) ;;
     ret (0 <? length (status_files status))%nat)
    (fun error =>
       raise (ErrorObj ("Failed to check for uncommitted changes: "
                        ++ messageOr "Unknown error" error))).

Definition getBranchDifference : M t BranchDifference :=
  catch
    (self <- get ;;
     call (Fetch (git self)) ;;
     status <- call (Status (git self)) ;;
     ret {| ahead := status_ahead status;
            behind := status_behind status;
            upToDate := (status_ahead status =? 0)%nat && (status_behind status =? 0)%nat |})
    (fun error =>
       raise (ErrorObj ("Failed to get branch difference: " ++ messageOr "Unknown error" error))).

Definition verifyRepository : M t Verification :=
  withLocal ([] : list string)
    (catch
       (self <- this ;;
        (* Check if it's a git repository *)
        call (Status (git self)) ;;
        (* Check if remote exists *)
        remotes <- call (GetRemotes (git self) false) ;;
        (if (length remotes =? 0)%nat
         then setLocal (push_back "No remote repositories configured")
         else ret tt) ;;
        (* Check if we can access the remote *)
        catch (call (Fetch (git self)))
              (fun _ => setLocal (push_back "Cannot access remote repository")) ;;
        issues <- getLocal ;;
        ret {| isValid := (length issues =? 0)%nat; issues := issues |})
       (fun error =>
          setLocal (push_back ("Repository verification failed: "
                               ++ messageOr "Unknown error" error)) ;;
          issues <- getLocal ;;
          ret {| isValid := false; issues := issues |})).

End GitContentService.

(** ** RainfallContentSyncService *)

Module RainfallContentSyncService.

(** An optional property [k?: T] of an object: the key is absent, or it is
    present with a value, which may be [undefined]. *)
Inductive OptionalProperty (T : Type) : Type :=
| Absent
| Present (value : orUndefined T).
Arguments Absent {T}.
Arguments Present {T} value.

(** The interface of the constructor's argument. *)
Module ContentSyncConfig.
Record t : Type :=
    { ceresRepositoryUrl : string;
      localContentPath : string;
      branch : OptionalProperty string;
      autoCommit : OptionalProperty bool;
      includePaths : OptionalProperty (list string);
      excludePaths : OptionalProperty (list string);
      verbose : OptionalProperty bool }.
End ContentSyncConfig.

(** The object held in [this.config], declared
    [Required<ContentSyncConfig>].  What a property read yields at run
    time is the declared type or [undefined]. *)
Record Config : Type :=
  { ceresRepositoryUrl : string;
    localContentPath : string;
    branch : orUndefined string;
    autoCommit : orUndefined bool;
    includePaths : orUndefined (list string);
    excludePaths : orUndefined (list string);
    verbose : orUndefined bool }.

Record SyncResult : Set :=
  { success : bool; changes : list string; errors : list string; timestamp : Date }.

Definition set_success (b : bool) (r : SyncResult) : SyncResult :=
  {| success := b; changes := changes r; errors := errors r; timestamp := timestamp r |}.
Definition set_changes (c : list string) (r : SyncResult) : SyncResult :=
  {| success := success r; changes := c; errors := errors r; timestamp := timestamp r |}.
Definition push_error (e : string) (r : SyncResult) : SyncResult :=
  {| success := success r; changes := changes r;
     errors := push_back e (errors r); timestamp := timestamp r |}.

Record SyncStatus : Set :=
  { localBranch : string; remoteBranch : string; upToDate : bool;
    hasLocalChanges : bool; lastSync : Date }.

(** The private fields of the class. *)
Record t : Type := { config : Config; git : SimpleGit }.

(** The property [k] of [{ k: dflt, ...config }]: an object spread copies
    every own property of [config], whatever its value. *)
Definition spreadOver {T} (dflt : T) (p : OptionalProperty T) : orUndefined T :=
  match p with
  | Absent => Some dflt
  | Present value => value
  end.

(** The object literal assigned to [this.config]. *)
Definition withDefaults (config : ContentSyncConfig.t) : Config :=
  {| branch := spreadOver "main" (ContentSyncConfig.branch config);
     autoCommit := spreadOver true (ContentSyncConfig.autoCommit config);
     includePaths := spreadOver [] (ContentSyncConfig.includePaths config);
     excludePaths :=
       spreadOver [".git"; "node_modules"; ".DS_Store"] (ContentSyncConfig.excludePaths config);
     verbose := spreadOver false (ContentSyncConfig.verbose config);
     ceresRepositoryUrl := ContentSyncConfig.ceresRepositoryUrl config;
     localContentPath := ContentSyncConfig.localContentPath config |}.

Definition constructor {S} (config : ContentSyncConfig.t) : M S t :=
  (* Set defaults for optional config properties *)
  let merged := withDefaults config in
  git <- simpleGit None ;;
  (* this.log = this.log.bind(this): nothing that can be observed *)
  ret {| config := merged; git := git |}.

Definition log (message : string) (isError : bool) : M t unit :=
  self <- get ;;
  if truthy (verbose (config self)) || isError then
    now <- newDate ;;
    timestamp <- runtime (fun env => toISOString env now) ;;
    let prefix := if isError then "[ERROR]" else "[INFO]" in
    consoleLog (timestamp ++ " " ++ prefix ++ " " ++ message)
  else ret tt.

Definition isGitSubmodule (path : string) : M t bool :=
  catch
    (gitDir <- call (ReadFile (path ++ "/.git") "utf8") ;;
     ret (startsWith (trim gitDir) "gitdir:"))
    (fun _ => ret false).

Definition initializeSubmodule : M t unit :=
  (* For submodules, we just need to ensure they're initialized and updated *)
  self <- get ;;
  parent <- runtime (fun env => dirname env (localContentPath (config self))) ;;
  parentGit <- simpleGit (Some parent) ;;
  call (SubmoduleInit parentGit) ;;
  call (SubmoduleUpdate parentGit).

Definition initializeStandaloneClone : M t unit :=
  self <- get ;;
  entries <- call (Readdir (localContentPath (config self))) ;;
  let isEmpty := (length entries =? 0)%nat in
  if isEmpty then
    (* Clone the repository *)
    log ("Cloning repository from " ++ ceresRepositoryUrl (config self) ++ "...") false ;;
    call (Clone (git self) (ceresRepositoryUrl (config self)) (localContentPath (config self)))
  else
    (* Directory exists, ensure it's a git repository *)
    contentGit <- simpleGit (Some (localContentPath (config self))) ;;
    catch (call (Status contentGit) ;; ret tt)
          (fun _ => raise (ErrorObj "Local content directory exists but is not a git repository")).

Definition applyPathFilters : M t unit :=
  log "Applying path filters... (implementation pending)" false.

Definition initialize : M t unit :=
  catch
    (log "Initializing Rainfall Content Sync Service..." false ;;
     self <- get ;;
     (* Ensure local content directory exists *)
     call (EnsureDir (localContentPath (config self))) ;;
     (* Check if we're working with a Git submodule or standalone clone *)
     isSubmodule <- isGitSubmodule (localContentPath (config self)) ;;
     (if isSubmodule : bool then
        log "Detected Git submodule, initializing submodule..." false ;;
        initializeSubmodule
      else
        log "Setting up standalone repository clone..." false ;;
        initializeStandaloneClone) ;;
     log "Content sync service initialized successfully" false)
    (fun error =>
       raise (ErrorObj ("Failed to initialize content sync service: "
                        ++ messageOr "Unknown error" error))).

(** [array.length] for [array : string[] | undefined]; reading a property
    of [undefined] throws a [TypeError]. *)
Definition typeErrorLength : string :=
  "Cannot read properties of undefined (reading 'length')".

Definition lengthOf {S} (array : orUndefined (list string)) : M S nat :=
  match array with
  | Some l => ret (length l)
  | None => raise (ErrorObj typeErrorLength)
  end.

Definition sync : M t SyncResult :=
  timestamp <- newDate ;;
  withLocal {| success := false; changes := []; errors := []; timestamp := timestamp |}
    (catch
       (onThis (log "Starting content synchronization..." false) ;;
        self <- this ;;
        (* Navigate to the content directory *)
        contentGit <- simpleGit (Some (localContentPath (config self))) ;;
        (* Pull latest changes *)
        onThis (log ("Pulling latest changes from " ++ showString (branch (config self))
                     ++ " branch...") false) ;;
        pullResult <- call (Pull contentGit "origin" (branch (config self))) ;;
        (if (0 <? length (pull_files pullResult))%nat then
           setLocal (set_changes (pull_files pullResult)) ;;
           onThis (log ("Synchronized " ++ showNat (length (pull_files pullResult))
                        ++ " files") false)
         else
           onThis (log "No changes to synchronize" false)) ;;
        (* Copy filtered content if include/exclude paths are specified *)
        included <- lengthOf (includePaths (config self)) ;;
        filtered <- (if (0 <? included)%nat then ret true
                     else excluded <- lengthOf (excludePaths (config self)) ;;
                          ret (0 <? excluded)%nat) ;;
        (if filtered : bool then onThis applyPathFilters else ret tt) ;;
        setLocal (set_success true) ;;
        onThis (log "Content synchronization completed successfully" false))
       (fun error =>
          let errorMessage := messageOr "Unknown error during sync" error in
          setLocal (push_error errorMessage) ;;
          onThis (log ("Sync failed: " ++ errorMessage) true)) ;;
     getLocal).

Definition push (commitMessage : orUndefined string) : M t SyncResult :=
  timestamp <- newDate ;;
  withLocal {| success := false; changes := []; errors := []; timestamp := timestamp |}
    (catch
       (self <- this ;;
        (if negb (truthy (autoCommit (config self)))
         then raise (ErrorObj "Push operation requires autoCommit to be enabled")
         else ret tt) ;;
        onThis (log "Checking for local changes to push..." false) ;;
        contentGit <- simpleGit (Some (localContentPath (config self))) ;;
        status <- call (Status contentGit) ;;
        if (length (status_files status) =? 0)%nat then
          onThis (log "No local changes to push" false) ;;
          setLocal (set_success true)
          (* return result: the rest of the try block is skipped *)
        else
          (* Add all changes *)
          call (Add contentGit ".") ;;
          (* Commit changes *)
          message <- match commitMessage with
                     | None | Some EmptyString =>
                         now <- newDate ;;
                         iso <- runtime (fun env => toISOString env now) ;;
                         ret ("Content sync update - " ++ iso)
                     | Some given => ret given
                     end ;;
          call (Commit contentGit message) ;;
          (* Push to remote *)
          call (Push contentGit "origin" (branch (config self))) ;;
          setLocal (set_changes (map file_path (status_files status))) ;;
          setLocal (set_success true) ;;
          onThis (log ("Pushed " ++ showNat (length (status_files status))
                       ++ " changes to remote repository") false))
       (fun error =>
          let errorMessage := messageOr "Unknown error during push" error in
          setLocal (push_error errorMessage) ;;
          onThis (log ("Push failed: " ++ errorMessage) true)) ;;
     getLocal).

Definition getStatus : M t SyncStatus :=
  catch
    (self <- get ;;
     contentGit <- simpleGit (Some (localContentPath (config self))) ;;
     status <- call (Status contentGit) ;;
     branchName <- call (Revparse contentGit ["--abbrev-ref"; "HEAD"]) ;;
     (* Check if we're ahead/behind remote *)
     let remoteBranch := "origin/" ++ showString (branch (config self)) in
     lastSync <- newDate ;;
     ret {| localBranch := branchName;
            remoteBranch := remoteBranch;
            upToDate := (status_ahead status =? 0)%nat && (status_behind status =? 0)%nat;
            hasLocalChanges := (0 <? length (status_files status))%nat;
            lastSync := lastSync |})
    (fun error =>
       raise (ErrorObj ("Failed to get sync status: " ++ messageOr "Unknown error" error))).

End RainfallContentSyncService.

(** ** Observations on a run *)

(** No call of the trace was rejected. *)
Definition allFulfilled (evs : Trace) : bool :=
  forallb (fun e => match e with EvCall _ (Rejected _) => false | _ => true end) evs.

(** The client that [sync], [push], [getStatus] and the standalone branch of
    [initialize] build for the local content directory. *)
Definition contentGit (self : RainfallContentSyncService.t) : SimpleGit :=
  {| baseDir := Some (RainfallContentSyncService.localContentPath
                        (RainfallContentSyncService.config self)) |}.


(** The clock was read as [d] immediately before the call [c] was made. *)
Definition readJustBefore (d : Date) (c : Call) (evs : Trace) : Prop :=
  exists after answer before,
    evs = (after ++ EvCall c answer :: EvNewDate d :: before)%list.

(** ** Example worlds

    Environments whose answers do not depend on the history, used to run
    the services on concrete scenarios. *)

Definition cleanStatus : StatusResult :=
  {| status_files := []; status_modified := []; status_created := [];
     status_deleted := []; status_not_added := []; status_ahead := 0; status_behind := 0 |}.

(** An empty directory next to a reachable remote: there is no [.git]
    entry, every git command succeeds and has nothing to report. *)
Definition quiet (c : Call) (h : Trace) : Settled (Resp c) :=
  match c with
  | EnsureDir _ => Fulfilled tt
  | ReadFile _ _ => Rejected (ErrorObj "ENOENT: no such file or directory")
  | Readdir _ => Fulfilled []
  | NewSimpleGit _ => Fulfilled tt
  | Status _ => Fulfilled cleanStatus
  | Revparse _ _ => Fulfilled "main"
  | GetRemotes _ true => Fulfilled []
  | GetRemotes _ false => Fulfilled []
  | Log _ _ => Fulfilled {| log_latest := None |}
  | Fetch _ => Fulfilled tt
  | Pull _ _ _ => Fulfilled {| pull_files := [] |}
  | Add _ _ => Fulfilled tt
  | Commit _ _ => Fulfilled tt
  | Push _ _ _ => Fulfilled tt
  | Clone _ _ _ => Fulfilled tt
  | SubmoduleInit _ => Fulfilled tt
  | SubmoduleUpdate _ => Fulfilled tt
  end.

Definition Responder : Type := forall c : Call, Trace -> Settled (Resp c).

Definition whenStatus (r : Settled StatusResult) (base : Responder) : Responder :=
  fun c h => match c with Status _ => r | c' => base c' h end.

Definition whenFetch (r : Settled unit) (base : Responder) : Responder :=
  fun c h => match c with Fetch _ => r | c' => base c' h end.

Definition whenPull (r : Settled PullResult) (base : Responder) : Responder :=
  fun c h => match c with Pull _ _ _ => r | c' => base c' h end.



(** A world with the given answers, whose clock stands still at the epoch. *)
Definition world (answers : Responder) : Env :=
  {| respond := answers;
     clock := fun _ => 0%Z;
     toISOString := fun _ => "1970-01-01T00:00:00.000Z";
     parseDate := fun _ => 0%Z;
     dirname := fun _ => "." |}.

Definition modifiedFile (path : string) : FileStatusResult :=
  {| file_path := path; file_index := " "; file_working_dir := "M" |}.

(** Scenario B: a working copy with two modified files. *)
Definition twoModified : StatusResult :=
  {| status_files := [modifiedFile "a.json"; modifiedFile "b.json"];
     status_modified := ["a.json"; "b.json"]; status_created := [];
     status_deleted := []; status_not_added := []; status_ahead := 0; status_behind := 0 |}.

(** A directory that is no working copy and has no network access either:
    the status query, and the fetch, would both fail. *)
Definition notARepository : Env :=
  world (whenStatus (Rejected (ErrorObj "fatal: not a git repository"))
           (whenFetch (Rejected (ErrorObj "fatal: unable to access remote")) quiet)).



(** The remote has two new files to pull. *)
Definition remoteAhead : Env :=
  world (whenPull (Fulfilled {| pull_files := ["a.json"; "b.json"] |}) quiet).

(** Scenario B. *)
Definition dirtyWorkingCopy : Env :=
  world (whenStatus (Fulfilled twoModified) quiet).

Definition aService : GitContentService.t :=
  {| GitContentService.git := {| baseDir := Some "./out" |};
     GitContentService.repositoryPath := "./out" |}.

(** A constructor argument with the two required fields only. *)
Definition requiredOnly (url path : string) : RainfallContentSyncService.ContentSyncConfig.t :=
  {| RainfallContentSyncService.ContentSyncConfig.ceresRepositoryUrl := url;
     RainfallContentSyncService.ContentSyncConfig.localContentPath := path;
     RainfallContentSyncService.ContentSyncConfig.branch := RainfallContentSyncService.Absent;
     RainfallContentSyncService.ContentSyncConfig.autoCommit := RainfallContentSyncService.Absent;
     RainfallContentSyncService.ContentSyncConfig.includePaths := RainfallContentSyncService.Absent;
     RainfallContentSyncService.ContentSyncConfig.excludePaths := RainfallContentSyncService.Absent;
     RainfallContentSyncService.ContentSyncConfig.verbose := RainfallContentSyncService.Absent |}.

(** The service object the constructor builds from a given argument. *)
Definition serviceOf (input : RainfallContentSyncService.ContentSyncConfig.t)
  : RainfallContentSyncService.t :=
  {| RainfallContentSyncService.config := RainfallContentSyncService.withDefaults input;
     RainfallContentSyncService.git := {| baseDir := None |} |}.

(** Scenario A's configuration. *)
Definition exampleService : RainfallContentSyncService.t :=
  serviceOf (requiredOnly "https://example/repo.git" "./out").

(** [{ ceresRepositoryUrl, localContentPath, branch: undefined }] *)
Definition branchUndefined : RainfallContentSyncService.ContentSyncConfig.t :=
  {| RainfallContentSyncService.ContentSyncConfig.ceresRepositoryUrl := "https://example/repo.git";
     RainfallContentSyncService.ContentSyncConfig.localContentPath := "./out";
     RainfallContentSyncService.ContentSyncConfig.branch := RainfallContentSyncService.Present None;
     RainfallContentSyncService.ContentSyncConfig.autoCommit := RainfallContentSyncService.Absent;
     RainfallContentSyncService.ContentSyncConfig.includePaths := RainfallContentSyncService.Absent;
     RainfallContentSyncService.ContentSyncConfig.excludePaths := RainfallContentSyncService.Absent;
     RainfallContentSyncService.ContentSyncConfig.verbose := RainfallContentSyncService.Absent |}.

(** [{ ceresRepositoryUrl, localContentPath, autoCommit: false }] *)
Definition autoCommitOff : RainfallContentSyncService.ContentSyncConfig.t :=
  {| RainfallContentSyncService.ContentSyncConfig.ceresRepositoryUrl := "https://example/repo.git";
     RainfallContentSyncService.ContentSyncConfig.localContentPath := "./out";
     RainfallContentSyncService.ContentSyncConfig.branch := RainfallContentSyncService.Absent;
     RainfallContentSyncService.ContentSyncConfig.autoCommit :=
       RainfallContentSyncService.Present (Some false);
     RainfallContentSyncService.ContentSyncConfig.includePaths := RainfallContentSyncService.Absent;
     RainfallContentSyncService.ContentSyncConfig.excludePaths := RainfallContentSyncService.Absent;
     RainfallContentSyncService.ContentSyncConfig.verbose := RainfallContentSyncService.Absent |}.

(** [{ ceresRepositoryUrl, localContentPath, includePaths: undefined }] *)
Definition includePathsUndefined : RainfallContentSyncService.ContentSyncConfig.t :=
  {| RainfallContentSyncService.ContentSyncConfig.ceresRepositoryUrl := "https://example/repo.git";
     RainfallContentSyncService.ContentSyncConfig.localContentPath := "./out";
     RainfallContentSyncService.ContentSyncConfig.branch := RainfallContentSyncService.Absent;
     RainfallContentSyncService.ContentSyncConfig.autoCommit := RainfallContentSyncService.Absent;
     RainfallContentSyncService.ContentSyncConfig.includePaths :=
       RainfallContentSyncService.Present None;
     RainfallContentSyncService.ContentSyncConfig.excludePaths := RainfallContentSyncService.Absent;
     RainfallContentSyncService.ContentSyncConfig.verbose := RainfallContentSyncService.Absent |}.

(** ** Further observations *)

(** The lines written to the console, oldest first. *)
Definition printed (evs : Trace) : list string :=
  rev (flat_map (fun e => match e with EvConsoleLog line => [line] | _ => [] end) evs).

(** The same service with other include and exclude lists. *)
Definition withPathLists (includes excludes : list string)
    (self : RainfallContentSyncService.t) : RainfallContentSyncService.t :=
  let c := RainfallContentSyncService.config self in
  {| RainfallContentSyncService.config :=
       {| RainfallContentSyncService.ceresRepositoryUrl :=
            RainfallContentSyncService.ceresRepositoryUrl c;
          RainfallContentSyncService.localContentPath :=
            RainfallContentSyncService.localContentPath c;
          RainfallContentSyncService.branch := RainfallContentSyncService.branch c;
          RainfallContentSyncService.autoCommit := RainfallContentSyncService.autoCommit c;
          RainfallContentSyncService.includePaths := Some includes;
          RainfallContentSyncService.excludePaths := Some excludes;
          RainfallContentSyncService.verbose := RainfallContentSyncService.verbose c |};
     RainfallContentSyncService.git := RainfallContentSyncService.git self |}.

(** ** More example worlds *)

Definition whenCommit (r : Settled unit) (base : Responder) : Responder :=
  fun c h => match c with Commit _ _ => r | c' => base c' h end.

Definition whenRemotes (r : Settled (list RemoteWithRefs)) (base : Responder) : Responder :=
  fun c h => match c with GetRemotes _ true => r | c' => base c' h end.

Definition whenLog (r : Settled LogResult) (base : Responder) : Responder :=
  fun c h => match c with Log _ _ => r | c' => base c' h end.

(** Scenario B, with a hook that refuses the commit. *)
Definition commitRefused : Env :=
  world (whenCommit (Rejected (ErrorObj "pre-commit hook failed"))
           (whenStatus (Fulfilled twoModified) quiet)).


Definition upstreamRemote : RemoteWithRefs :=
  {| remote_name := "upstream";
     remote_refs := {| refs_fetch := "https://example/upstream.git";
                       refs_push := "https://example/upstream.git" |} |}.

Definition originRemote : RemoteWithRefs :=
  {| remote_name := "origin";
     remote_refs := {| refs_fetch := "https://example/repo.git";
                       refs_push := "https://example/repo.git" |} |}.

Definition firstCommit : LogLine :=
  {| log_hash := "4f2a9c1"; log_date := "2024-01-01T00:00:00Z";
     log_message := "Initial commit"; log_author_name := "Ada" |}.

(** A clone of origin with a second remote and one commit. *)
Definition clonedFromOrigin : Env :=
  world (whenRemotes (Fulfilled [upstreamRemote; originRemote])
           (whenLog (Fulfilled {| log_latest := Some firstCommit |}) quiet)).

(** ** The rest of GitContentService and the command line, in a wider world

    The remaining methods of [GitContentService] ask simple-git for
    operations that [Call] does not list, and the command line of the tool
    ([cli.ts]) also reads and writes its configuration file, runs git in a
    shell, writes to the standard error and leaves the process.  The wider
    world answers those operations as well as the calls known so far, and a
    run in it may end by leaving the process. *)

Module Wide.

(** An entry of [DiffResult.files]: a text file carries its counts of
    inserted and deleted lines, a binary file does not. *)
Inductive DiffFile : Set :=
| DiffText (file : string) (changes insertions deletions : nat)
| DiffBinary (file : string) (before after : nat).

(** [file.file] *)
Definition diff_file (f : DiffFile) : string :=
  match f with
  | DiffText file _ _ _ => file
  | DiffBinary file _ _ => file
  end.

Record DiffResult : Set := { diff_files : list DiffFile }.

(** The object [fs.readJson] yields for a configuration file, seen through
    the interface [ContentSyncConfig] that [loadConfig] declares for it: any
    key may be absent, and a key that is present has a value of its declared
    type.  [loadConfig] itself tests the two required properties for
    truthiness only and checks no type; a file that holds a value of
    another type is outside this model. *)
Record ParsedConfig : Type :=
  { parsed_ceresRepositoryUrl : RainfallContentSyncService.OptionalProperty string;
    parsed_localContentPath : RainfallContentSyncService.OptionalProperty string;
    parsed_branch : RainfallContentSyncService.OptionalProperty string;
    parsed_autoCommit : RainfallContentSyncService.OptionalProperty bool;
    parsed_includePaths : RainfallContentSyncService.OptionalProperty (list string);
    parsed_excludePaths : RainfallContentSyncService.OptionalProperty (list string);
    parsed_verbose : RainfallContentSyncService.OptionalProperty bool }.

(** The styles of chalk the command line uses. *)
Inductive Color : Set := blue | green | gray | red | yellow.

Inductive Op : Type :=
| Known (c : Call)
| PathExists (path : string)                          (* fs.pathExists(path) *)
| ReadJson (file : string)                            (* fs.readJson(file) *)
| WriteJson (file : string) (object : RainfallContentSyncService.ContentSyncConfig.t)
            (spaces : nat)                            (* fs.writeJson(file, object, { spaces }) *)
| Exec (command : string)                             (* promisify(exec)(command) *)
| CheckoutBranch (git : SimpleGit) (branchName startPoint : string)
| Checkout (git : SimpleGit) (what : string)         (* git.checkout(what) *)
| GitReset (git : SimpleGit) (options : list string) (* git.reset(options) *)
| GitClean (git : SimpleGit) (mode : string) (options : list string)
| DiffSummary (git : SimpleGit) (options : list string).

Definition Answer (o : Op) : Type :=
  match o with
  | Known c => Resp c
  | PathExists _ => bool
  | ReadJson _ => ParsedConfig
  | DiffSummary _ _ => DiffResult
  | _ => unit
  end.

(** What happens in a run; a history lists it newest first. *)
Inductive Happening : Type :=
| Asked (o : Op) (answer : Settled (Answer o))
| ClockRead (d : Date)
| Printed (line : string)          (* console.log *)
| PrintedError (line : string).    (* console.error *)

Definition History : Type := list Happening.

(** The operations of a history, oldest first. *)
Definition asked (past : History) : list Op :=
  rev (flat_map (fun e => match e with Asked o _ => [o] | _ => [] end) past).

(** The lines written to the standard output, oldest first. *)
Definition stdout (past : History) : list string :=
  rev (flat_map (fun e => match e with Printed line => [line] | _ => [] end) past).

Record World : Type :=
  { reply : forall o : Op, History -> Settled (Answer o);
    time : History -> Date;
    isoString : Date -> string;
    dateOf : string -> Date;
    parentOf : string -> string;
    resolvePath : string -> string;         (* path.resolve *)
    paint : Color -> string -> string }.    (* chalk.blue, chalk.green, ... *)

(** How a run ends: it returns, it throws, or it leaves the process with an
    exit code ([process.exit]), which no [catch] sees. *)
Inductive Ended (A : Type) : Type :=
| Returned (value : A)
| Threw (reason : Thrown)
| Exited (code : nat).
Arguments Returned {A} value.
Arguments Threw {A} reason.
Arguments Exited {A} code.

Definition Run (S A : Type) : Type := World -> History -> S -> Ended A * S * History.

Definition ending {S A} (run : Ended A * S * History) : Ended A := fst (fst run).
Definition happenings {S A} (run : Ended A * S * History) : History := snd run.

#[global] Instance Monad_Run {S} : Monad (Run S) :=
  {| ret := fun A (a : A) => fun _ _ s => (Returned a, s, []);
     bind := fun A B (m : Run S A) (k : A -> Run S B) => fun w past s =>
       match m w past s with
       | (Returned a, s1, evs1) =>
           match k a w (evs1 ++ past)%list s1 with
           | (r, s2, evs2) => (r, s2, (evs2 ++ evs1)%list)
           end
       | (Threw e, s1, evs1) => (Threw e, s1, evs1)
       | (Exited code, s1, evs1) => (Exited code, s1, evs1)
       end |}.

#[global] Instance MonadExc_Run {S} : MonadExc Thrown (Run S) :=
  {| raise := fun A (e : Thrown) => fun _ _ s => (Threw e, s, []);
     catch := fun A (body : Run S A) (handler : Thrown -> Run S A) => fun w past s =>
       match body w past s with
       | (Threw e, s1, evs1) =>
           match handler e w (evs1 ++ past)%list s1 with
           | (r, s2, evs2) => (r, s2, (evs2 ++ evs1)%list)
           end
       | ended => ended
       end |}.

#[global] Instance MonadState_Run {S} : MonadState S (Run S) :=
  {| get := fun _ _ s => (Returned s, s, []);
     put := fun s' => fun _ _ _ => (Returned tt, s', []) |}.

(** An awaited operation. *)
Definition ask {S} (o : Op) : Run S (Answer o) :=
  fun w past s =>
    let answer := reply w o past in
    (match answer with Fulfilled a => Returned a | Rejected e => Threw e end,
     s, [Asked o answer]).

(** [new Date()] *)
Definition readClock {S} : Run S Date :=
  fun w past s => let d := time w past in (Returned d, s, [ClockRead d]).

(** A pure function of the runtime. *)
Definition pure {S A} (f : World -> A) : Run S A :=
  fun w _ s => (Returned (f w), s, []).

(** [console.log(line)] *)
Definition consoleLog {S} (line : string) : Run S unit :=
  fun _ _ s => (Returned tt, s, [Printed line]).

(** [console.error(line)] *)
Definition consoleError {S} (line : string) : Run S unit :=
  fun _ _ s => (Returned tt, s, [PrintedError line]).

(** [process.exit(code)] *)
Definition exit {S A} (code : nat) : Run S A :=
  fun _ _ s => (Exited code, s, []).

(** [array.forEach(f)] *)
Fixpoint forEach {S A} (array : list A) (f : A -> Run S unit) : Run S unit :=
  match array with
  | [] => ret tt
  | x :: rest => f x ;; forEach rest f
  end.

(** How the events of the two services show in a history. *)
Definition inject (e : Event) : Happening :=
  match e with
  | EvCall c answer => Asked (Known c) answer
  | EvNewDate d => ClockRead d
  | EvConsoleLog line => Printed line
  end.

(** The world as one of the two services meets it, after [past]. *)
Definition envAt (w : World) (past : History) : Env :=
  {| respond := fun c h => reply w (Known c) (map inject h ++ past)%list;
     clock := fun h => time w (map inject h ++ past)%list;
     toISOString := isoString w;
     parseDate := dateOf w;
     dirname := parentOf w |}.

Definition ended {A} (r : Settled A) : Ended A :=
  match r with
  | Fulfilled a => Returned a
  | Rejected e => Threw e
  end.

(** A computation of the two services, run in the wider world. *)
Definition lift {S A} (m : M S A) : Run S A :=
  fun w past s =>
    match m (envAt w past) [] s with
    | (r, s', evs) => (ended r, s', map inject evs)
    end.

(** A method called on an object held in a local constant.  None of the
    methods assigns a field of its object, so the object is not written
    back. *)
Definition callOn {S T A} (object : T) (method : M T A) : Run S A :=
  fun w past s =>
    match method (envAt w past) [] object with
    | (r, _, evs) => (ended r, s, map inject evs)
    end.

(** [isoString.replace(/[:.]/g, '-')] *)
Fixpoint dashed (s : string) : string :=
  match s with
  | EmptyString => EmptyString
  | String c rest =>
      String (if Ascii.eqb c ":" || Ascii.eqb c "." then "-"%char else c) (dashed rest)
  end.

Module RestOfGitContentService.

Record FileChanges : Set :=
  { modified : list string; added : list string; deleted : list string }.

(** The argument of [cleanup]. *)
Record CleanupOptions : Type :=
  { removeUntracked : orUndefined bool; resetChanges : orUndefined bool }.

Definition t : Set := GitContentService.t.
Definition git : t -> SimpleGit := GitContentService.git.

Definition createBackupBranch (branchName : orUndefined string) : Run t string :=
  catch
    (self <- get ;;
     now <- readClock ;;
     iso <- pure (fun w => isoString w now) ;;
     let timestamp := dashed iso in
     let backupName := orElse branchName ("backup-" ++ timestamp) in
     ask (CheckoutBranch (git self) backupName "HEAD") ;;
     ask (Checkout (git self) "main") ;; (* Return to main branch *)
     ret backupName)
    (fun error =>
       raise (ErrorObj ("Failed to create backup branch: " ++ messageOr "Unknown error" error))).

(** The body of the [forEach] over [diff.files], on the three arrays. *)
Definition classify (lists : FileChanges) (file : DiffFile) : FileChanges :=
  match file with
  | DiffText name _ insertions deletions =>
      (* Check if it's a text file with insertions/deletions properties *)
      if (0 <? insertions)%nat && (0 <? deletions)%nat then
        {| modified := push_back name (modified lists);
           added := added lists; deleted := deleted lists |}
      else if (0 <? insertions)%nat then
        {| modified := modified lists;
           added := push_back name (added lists); deleted := deleted lists |}
      else if (0 <? deletions)%nat then
        {| modified := modified lists;
           added := added lists; deleted := push_back name (deleted lists) |}
      else lists
  | DiffBinary name _ _ =>
      (* For binary files or other types, we'll consider them modified *)
      {| modified := push_back name (modified lists);
         added := added lists; deleted := deleted lists |}
  end.

(** Which list a file of the diff is pushed to, if any. *)
Definition countsAsModified (file : DiffFile) : bool :=
  match file with
  | DiffText _ _ insertions deletions => (0 <? insertions)%nat && (0 <? deletions)%nat
  | DiffBinary _ _ _ => true
  end.

Definition countsAsAdded (file : DiffFile) : bool :=
  match file with
  | DiffText _ _ insertions deletions => (0 <? insertions)%nat && (deletions =? 0)%nat
  | DiffBinary _ _ _ => false
  end.

Definition countsAsDeleted (file : DiffFile) : bool :=
  match file with
  | DiffText _ _ insertions deletions => (insertions =? 0)%nat && (0 <? deletions)%nat
  | DiffBinary _ _ _ => false
  end.

(** A text file with no inserted and no deleted line, such as a pure rename
    or a change of mode. *)
Definition untouchedText (file : DiffFile) : bool :=
  match file with
  | DiffText _ _ insertions deletions => (insertions =? 0)%nat && (deletions =? 0)%nat
  | DiffBinary _ _ _ => false
  end.

Definition getFileChanges (fromCommit toCommit : string) : Run t FileChanges :=
  catch
    (self <- get ;;
     diff <- ask (DiffSummary (git self) [fromCommit; toCommit]) ;;
     ret (fold_left classify (diff_files diff)
            {| modified := []; added := []; deleted := [] |}))
    (fun error =>
       raise (ErrorObj ("Failed to get file changes: " ++ messageOr "Unknown error" error))).

(** [options] defaults to [{}] when the argument is left out. *)
Definition cleanup (options : orUndefined CleanupOptions) : Run t unit :=
  let options :=
    match options with
    | Some given => given
    | None => {| removeUntracked := None; resetChanges := None |}
    end in
  catch
    (self <- get ;;
     (if truthy (resetChanges options)
      then ask (GitReset (git self) ["--hard"; "HEAD"])
      else ret tt) ;;
     (if truthy (removeUntracked options)
      then ask (GitClean (git self) "f" ["-d"])
      else ret tt))
    (fun error =>
       raise (ErrorObj ("Failed to cleanup repository: " ++ messageOr "Unknown error" error))).

End RestOfGitContentService.

(** *** The command line *)

Module Cli.

Module InitOptions.
Record t : Type :=
  { repo : string; path : string; branch : string; submodule : orUndefined bool }.
End InitOptions.

Module SyncOptions.
Record t : Type := { config : string; verbose : orUndefined bool }.
End SyncOptions.

Module PushOptions.
Record t : Type := { config : string; message : orUndefined string }.
End PushOptions.

Module VerifyOptions.
Record t : Type := { config : string }.
End VerifyOptions.

(** [!value] for a property declared as a string: it is absent, undefined
    or the empty string. *)
Definition missing (value : RainfallContentSyncService.OptionalProperty string) : bool :=
  match value with
  | RainfallContentSyncService.Present (Some (String _ _)) => false
  | _ => true
  end.

(** Helper function to load configuration.  What it returns is the parsed
    object, whose two required properties are then known to hold strings. *)
Definition loadConfig (configPath : string)
    : Run unit RainfallContentSyncService.ContentSyncConfig.t :=
  catch
    (found <- ask (PathExists configPath) ;;
     (if negb found
      then raise (ErrorObj ("Configuration file not found: " ++ configPath
                            ++ ". Run 'ceres-sync init' first."))
      else ret tt) ;;
     config <- ask (ReadJson configPath) ;;
     (* Validate required properties *)
     match parsed_ceresRepositoryUrl config, parsed_localContentPath config with
     | RainfallContentSyncService.Present (Some (String _ _ as url)),
       RainfallContentSyncService.Present (Some (String _ _ as dir)) =>
         ret {| RainfallContentSyncService.ContentSyncConfig.ceresRepositoryUrl := url;
                RainfallContentSyncService.ContentSyncConfig.localContentPath := dir;
                RainfallContentSyncService.ContentSyncConfig.branch := parsed_branch config;
                RainfallContentSyncService.ContentSyncConfig.autoCommit :=
                  parsed_autoCommit config;
                RainfallContentSyncService.ContentSyncConfig.includePaths :=
                  parsed_includePaths config;
                RainfallContentSyncService.ContentSyncConfig.excludePaths :=
                  parsed_excludePaths config;
                RainfallContentSyncService.ContentSyncConfig.verbose :=
                  parsed_verbose config |}
     | _, _ => raise (ErrorObj "Invalid configuration: missing required properties")
     end)
    (fun error =>
       raise (ErrorObj ("Failed to load configuration: " ++ messageOr "Unknown error" error))).

(** [config.verbose = true] *)
Definition setVerbose (config : RainfallContentSyncService.ContentSyncConfig.t)
    : RainfallContentSyncService.ContentSyncConfig.t :=
  {| RainfallContentSyncService.ContentSyncConfig.ceresRepositoryUrl :=
       RainfallContentSyncService.ContentSyncConfig.ceresRepositoryUrl config;
     RainfallContentSyncService.ContentSyncConfig.localContentPath :=
       RainfallContentSyncService.ContentSyncConfig.localContentPath config;
     RainfallContentSyncService.ContentSyncConfig.branch :=
       RainfallContentSyncService.ContentSyncConfig.branch config;
     RainfallContentSyncService.ContentSyncConfig.autoCommit :=
       RainfallContentSyncService.ContentSyncConfig.autoCommit config;
     RainfallContentSyncService.ContentSyncConfig.includePaths :=
       RainfallContentSyncService.ContentSyncConfig.includePaths config;
     RainfallContentSyncService.ContentSyncConfig.excludePaths :=
       RainfallContentSyncService.ContentSyncConfig.excludePaths config;
     RainfallContentSyncService.ContentSyncConfig.verbose :=
       RainfallContentSyncService.Present (Some true) |}.

(** [console.error(first, second)] prints its arguments with a space
    between them. *)
Definition consoleError2 {S} (first second : string) : Run S unit :=
  consoleError (first ++ " " ++ second).

(** The configuration object the init command builds. *)
Definition initConfig (w : World) (options : InitOptions.t)
    : RainfallContentSyncService.ContentSyncConfig.t :=
  {| RainfallContentSyncService.ContentSyncConfig.ceresRepositoryUrl := InitOptions.repo options;
     RainfallContentSyncService.ContentSyncConfig.localContentPath :=
       resolvePath w (InitOptions.path options);
     RainfallContentSyncService.ContentSyncConfig.branch :=
       RainfallContentSyncService.Present (Some (InitOptions.branch options));
     RainfallContentSyncService.ContentSyncConfig.autoCommit := RainfallContentSyncService.Absent;
     RainfallContentSyncService.ContentSyncConfig.includePaths :=
       RainfallContentSyncService.Absent;
     RainfallContentSyncService.ContentSyncConfig.excludePaths :=
       RainfallContentSyncService.Absent;
     RainfallContentSyncService.ContentSyncConfig.verbose :=
       RainfallContentSyncService.Present (Some true) |}.

(** Initialize command - sets up content sync in a project *)
Definition init (options : InitOptions.t) : Run unit unit :=
  catch
    (line <- pure (fun w => paint w blue "🌧️  Initializing Rainfall Content Sync...") ;;
     consoleLog line ;;
     config <- pure (fun w => initConfig w options) ;;
     (if truthy (InitOptions.submodule options) then
        line <- pure (fun w => paint w yellow "Adding Ceres as Git submodule...") ;;
        consoleLog line ;;
        (* exec and promisify are imported here, from the runtime's own modules *)
        ask (Exec ("git submodule add " ++ InitOptions.repo options ++ " "
                   ++ InitOptions.path options)) ;;
        ask (Exec "git submodule init") ;;
        ask (Exec "git submodule update") ;;
        line <- pure (fun w => paint w green "✅ Git submodule added successfully") ;;
        consoleLog line
      else
        syncService <- lift (RainfallContentSyncService.constructor config) ;;
        callOn syncService RainfallContentSyncService.initialize ;;
        line <- pure (fun w => paint w green "✅ Content sync initialized successfully") ;;
        consoleLog line) ;;
     (* Create config file *)
     let configPath := ".ceres-sync.json" in
     ask (WriteJson configPath config 2) ;;
     line <- pure (fun w => paint w green ("✅ Configuration saved to " ++ configPath)) ;;
     consoleLog line)
    (fun error =>
       line <- pure (fun w => paint w red "❌ Initialization failed:") ;;
       consoleError2 line (messageOr "Unknown error" error) ;;
       exit 1).

(** Sync command - synchronizes content from remote *)
Definition sync (options : SyncOptions.t) : Run unit unit :=
  catch
    (line <- pure (fun w => paint w blue "🔄 Synchronizing content...") ;;
     consoleLog line ;;
     (* Load configuration *)
     config <- loadConfig (SyncOptions.config options) ;;
     let config := if truthy (SyncOptions.verbose options) then setVerbose config else config in
     syncService <- lift (RainfallContentSyncService.constructor config) ;;
     result <- callOn syncService RainfallContentSyncService.sync ;;
     if RainfallContentSyncService.success result then
       if (0 <? length (RainfallContentSyncService.changes result))%nat then
         line <- pure (fun w => paint w green
                         ("✅ Synchronized "
                          ++ showNat (length (RainfallContentSyncService.changes result))
                          ++ " files:")) ;;
         consoleLog line ;;
         forEach (RainfallContentSyncService.changes result)
           (fun file => line <- pure (fun w => paint w gray ("  - " ++ file)) ;;
                        consoleLog line)
       else
         line <- pure (fun w => paint w green "✅ Content is already up to date") ;;
         consoleLog line
     else
       line <- pure (fun w => paint w red "❌ Synchronization failed:") ;;
       consoleError line ;;
       forEach (RainfallContentSyncService.errors result)
         (fun error => line <- pure (fun w => paint w red ("  - " ++ error)) ;;
                       consoleError line) ;;
       exit 1)
    (fun error =>
       line <- pure (fun w => paint w red "❌ Sync failed:") ;;
       consoleError2 line (messageOr "Unknown error" error) ;;
       exit 1).

(** Push command - pushes local changes to remote *)
Definition push (options : PushOptions.t) : Run unit unit :=
  catch
    (line <- pure (fun w => paint w blue "⬆️  Pushing changes...") ;;
     consoleLog line ;;
     (* Load configuration *)
     config <- loadConfig (PushOptions.config options) ;;
     syncService <- lift (RainfallContentSyncService.constructor config) ;;
     result <- callOn syncService
                 (RainfallContentSyncService.push (PushOptions.message options)) ;;
     if RainfallContentSyncService.success result then
       if (0 <? length (RainfallContentSyncService.changes result))%nat then
         line <- pure (fun w => paint w green
                         ("✅ Pushed "
                          ++ showNat (length (RainfallContentSyncService.changes result))
                          ++ " changes:")) ;;
         consoleLog line ;;
         forEach (RainfallContentSyncService.changes result)
           (fun file => line <- pure (fun w => paint w gray ("  - " ++ file)) ;;
                        consoleLog line)
       else
         line <- pure (fun w => paint w green "✅ No changes to push") ;;
         consoleLog line
     else
       line <- pure (fun w => paint w red "❌ Push failed:") ;;
       consoleError line ;;
       forEach (RainfallContentSyncService.errors result)
         (fun error => line <- pure (fun w => paint w red ("  - " ++ error)) ;;
                       consoleError line) ;;
       exit 1)
    (fun error =>
       line <- pure (fun w => paint w red "❌ Push failed:") ;;
       consoleError2 line (messageOr "Unknown error" error) ;;
       exit 1).

(** Verify command - verifies repository integrity *)
Definition verify (options : VerifyOptions.t) : Run unit unit :=
  catch
    (line <- pure (fun w => paint w blue "🔍 Verifying repository...") ;;
     consoleLog line ;;
     (* Load configuration *)
     config <- loadConfig (VerifyOptions.config options) ;;
     gitService <- lift (GitContentService.constructor
                           (RainfallContentSyncService.ContentSyncConfig.localContentPath config)) ;;
     verification <- callOn gitService GitContentService.verifyRepository ;;
     if GitContentService.isValid verification then
       line <- pure (fun w => paint w green "✅ Repository verification passed") ;;
       consoleLog line
     else
       line <- pure (fun w => paint w red "❌ Repository verification failed:") ;;
       consoleLog line ;;
       forEach (GitContentService.issues verification)
         (fun issue => line <- pure (fun w => paint w red ("  - " ++ issue)) ;;
                       consoleLog line) ;;
       exit 1)
    (fun error =>
       line <- pure (fun w => paint w red "❌ Verification failed:") ;;
       consoleError2 line (messageOr "Unknown error" error) ;;
       exit 1).

End Cli.

End Wide.

(** ** Example worlds for the remaining methods and the command line *)

(** A diff with one file of each kind. *)
Definition mixedDiff : Wide.DiffResult :=
  {| Wide.diff_files :=
       [Wide.DiffText "tokens.json" 5 3 2; Wide.DiffText "new.md" 4 4 0;
        Wide.DiffText "old.md" 7 0 7; Wide.DiffText "renamed.md" 0 0 0;
        Wide.DiffBinary "logo.png" 100 120] |}.

(** The content of a configuration file with the required properties and
    the branch. *)
Definition parsedExample : Wide.ParsedConfig :=
  {| Wide.parsed_ceresRepositoryUrl :=
       RainfallContentSyncService.Present (Some "https://example/repo.git");
     Wide.parsed_localContentPath := RainfallContentSyncService.Present (Some "./out");
     Wide.parsed_branch := RainfallContentSyncService.Present (Some "main");
     Wide.parsed_autoCommit := RainfallContentSyncService.Absent;
     Wide.parsed_includePaths := RainfallContentSyncService.Absent;
     Wide.parsed_excludePaths := RainfallContentSyncService.Absent;
     Wide.parsed_verbose := RainfallContentSyncService.Absent |}.

(** Every operation succeeds: the calls known before as in [quiet], the
    configuration file is there, the diff is [mixedDiff]. *)
Definition calm (o : Wide.Op) (past : Wide.History) : Settled (Wide.Answer o) :=
  match o with
  | Wide.Known c => quiet c []
  | Wide.PathExists _ => Fulfilled true
  | Wide.ReadJson _ => Fulfilled parsedExample
  | Wide.DiffSummary _ _ => Fulfilled mixedDiff
  | Wide.WriteJson _ _ _ => Fulfilled tt
  | Wide.Exec _ => Fulfilled tt
  | Wide.CheckoutBranch _ _ _ => Fulfilled tt
  | Wide.Checkout _ _ => Fulfilled tt
  | Wide.GitReset _ _ => Fulfilled tt
  | Wide.GitClean _ _ _ => Fulfilled tt
  end.

(** As [calm], but there is no branch main to return to. *)
Definition noMain (o : Wide.Op) (past : Wide.History) : Settled (Wide.Answer o) :=
  match o with
  | Wide.Checkout _ _ => Rejected (ErrorObj "pathspec 'main' did not match")
  | o' => calm o' past
  end.

(** A world with the given answers, whose clock stands still at the epoch,
    run from [/project] on a terminal without colours. *)
Definition wideWorld (answers : forall o : Wide.Op, Wide.History -> Settled (Wide.Answer o))
    : Wide.World :=
  {| Wide.reply := answers;
     Wide.time := fun _ => 0%Z;
     Wide.isoString := fun _ => "1970-01-01T00:00:00.000Z";
     Wide.dateOf := fun _ => 0%Z;
     Wide.parentOf := fun _ => ".";
     Wide.resolvePath := fun path => "/project/" ++ path;
     Wide.paint := fun _ text => text |}.

(** [ceres-sync init --submodule] with the defaults of the other options. *)
Definition initAsSubmodule : Wide.Cli.InitOptions.t :=
  {| Wide.Cli.InitOptions.repo := "https://github.com/rainfall-one/ceres.git";
     Wide.Cli.InitOptions.path := "./shared-content";
     Wide.Cli.InitOptions.branch := "main";
     Wide.Cli.InitOptions.submodule := Some true |}.

(** As [calm], but the remote has two new files to pull. *)
Definition remoteHasNews (o : Wide.Op) (past : Wide.History) : Settled (Wide.Answer o) :=
  match o with
  | Wide.Known c => respond remoteAhead c []
  | o' => calm o' past
  end.

(** [ceres-sync sync] with the default path of the configuration file. *)
Definition syncQuietly : Wide.Cli.SyncOptions.t :=
  {| Wide.Cli.SyncOptions.config := ".ceres-sync.json";
     Wide.Cli.SyncOptions.verbose := None |}.

(** * Proofs *)

(** ** Reasoning about events *)

Lemma Call_eq_dec (c1 c2 : Call) : {c1 = c2} + {c1 <> c2}.
Proof.
  decide equality;
    repeat first [ apply string_dec | apply Nat.eq_dec | apply Bool.bool_dec
                 | apply list_eq_dec | decide equality ].
Qed.

(** Two records of the same call carry the same answer. *)
Lemma EvCall_inj c (a1 a2 : Settled (Resp c)) : EvCall c a1 = EvCall c a2 -> a1 = a2.
Proof.
  intros H. inversion H as [H1].
  exact (inj_pair2_eq_dec Call Call_eq_dec (fun c => Settled (Resp c)) c a1 a2 H1).
Qed.

(** Two records of calls are equal when the calls are, and the answers then. *)
Lemma EvCall_eq c1 (a1 : Settled (Resp c1)) c2 (a2 : Settled (Resp c2)) :
  EvCall c1 a1 = EvCall c2 a2 ->
  exists e : c1 = c2, eq_rect c1 (fun c => Settled (Resp c)) a1 c2 e = a2.
Proof.
  intros H.
  assert (Hc : c1 = c2) by (inversion H; reflexivity).
  destruct Hc. exists eq_refl. cbn. exact (EvCall_inj _ _ _ H).
Qed.

#[local] Arguments append : simpl never.
#[local] Arguments startsWith : simpl never.

(** Symbolic execution: unfold the monad, then let the answers of the
    environment decide, oldest call first. *)
Ltac run :=
  cbv beta iota zeta delta
    [withLocal onThis this getLocal setLocal promise await call newDate consoleLog
     runtime simpleGit bind ret catch raise get put Monad_M MonadExc_M MonadState_M
     outcome stateAfter events];
  cbn.

Ltac answer :=
  match goal with
  | |- context [respond ?env ?c ?h] =>
      lazymatch h with
      | context [respond _ _ _] => fail
      | _ => destruct (respond env c h) eqn:?
      end
  end; run.

(** What membership of an event in an explicit trace, or an equation between
    answers, tells. *)
Ltac happened :=
  repeat match goal with
    | H : _ \/ _ |- _ => destruct H as [H | H]
    | H : False |- _ => destruct H
    | H : exists _, _ |- _ => destruct H as [? H]
    | H : _ /\ _ |- _ => destruct H
    | H : EvCall ?c _ = EvCall ?c _ |- _ => apply EvCall_inj in H
    | H : EvCall _ _ = EvCall ?c _ |- _ =>
        is_var c; apply EvCall_eq in H; destruct H as [?Hc H]; destruct Hc; cbn in H
    | H : EvCall _ _ = _ |- _ => discriminate H
    | H : EvNewDate _ = _ |- _ => first [ discriminate H | injection H as H ]
    | H : EvConsoleLog _ = _ |- _ => first [ discriminate H | injection H as H ]
    | H : Fulfilled _ = Rejected _ |- _ => discriminate H
    | H : Rejected _ = Fulfilled _ |- _ => discriminate H
    | H : Fulfilled _ = Fulfilled _ |- _ => injection H as H
    | H : Rejected _ = Rejected _ |- _ => injection H as H
    | H : true = false |- _ => discriminate H
    | H : false = true |- _ => discriminate H
    | H : _ :: _ = [] |- _ => discriminate H
    | H : [] = _ :: _ |- _ => discriminate H
    end.

(** Close the leaves of a symbolic execution. *)
Ltac leaf :=
  cbn;
  repeat match goal with
    | |- _ /\ _ => split
    | |- _ <-> _ => split
    | |- forall _, _ => intro
    end;
  happened; subst;
  first [ reflexivity | discriminate | congruence
        | solve [repeat constructor; cbn; intuition discriminate]
        | solve [eexists; cbn; eauto]
        | solve [cbn; eauto]
        | match goal with
          | H : forall _, ~ _ |- _ => solve [exfalso; eapply H; cbn; eauto 10]
          end ].

(** One step of a run: the next answer, the next test of the code. *)
Ltac step :=
  first
    [ answer
    | match goal with
      | |- context [match Datatypes.length ?l with _ => _ end] => destruct l eqn:?; run
      | |- context [(Datatypes.length ?l =? 0)%nat] => destruct l eqn:?; run
      end
    | match goal with
      | |- context [truthy ?x] => is_var x; destruct x as [[|]|]; run
      | |- context [match ?x with _ => _ end] => is_var x; destruct x; run
      end
    | match goal with
      | |- context [if ?b then _ else _] => destruct b eqn:?; run
      end ].

Module GitContentServiceFacts.
Import GitContentService.

(** On a directory that is no working copy, has no remote and no network
    access, the verification stops at the status query: one issue is
    reported, the remotes are not listed and the fetch is not tried. *)
Example verifyRepository_on_a_plain_directory :
  outcome (verifyRepository notARepository [] aService) =
    Fulfilled {| isValid := false;
                 issues := ["Repository verification failed: fatal: not a git repository"] |} /\
  calls (events (verifyRepository notARepository [] aService)) = [Status (git aService)].
Proof. split; reflexivity. Qed.

(** C7, as stated, fails: a failed status query ends the verification, so
    a fetch that would fail as well is never tried and never reported. *)
Lemma verifyRepository_not_every_failed_check_reported :
  ~ (forall env h self v e,
        outcome (verifyRepository env h self) = Fulfilled v ->
        (forall h', respond env (Fetch (git self)) h' = Rejected e) ->
        In "Cannot access remote repository" (issues v)).
Proof.
  intros claim.
  specialize (claim notARepository [] aService _ (ErrorObj "fatal: unable to access remote")
                eq_refl (fun _ => eq_refl)).
  cbn in claim. destruct claim as [H | []]. discriminate H.
Qed.

(** C7, amended: [verifyRepository] never raises, and [isValid] holds
    exactly when no issue was recorded.  The status query is always made,
    and the remote list is queried when it answers; a rejection of either
    ends the verification with the single issue "Repository verification
    failed: <message>", the remaining checks being skipped.  When both
    answer, the fetch is always tried, and the issues are "No remote
    repositories configured" if the list is empty, followed by "Cannot
    access remote repository" if the fetch is rejected, each whatever the
    other does.  The two issues of Scenario C are thus returned exactly
    when the list is empty and the fetch is rejected as well; nothing in
    the code makes an empty list imply a rejected fetch, and with a
    fulfilled fetch the result is the first issue alone. *)
Theorem verifyRepository_advisory env h self :
  let run := verifyRepository env h self in
  let g := git self in
  exists v,
    outcome run = Fulfilled v /\ stateAfter run = self /\
    (isValid v = true <-> issues v = []) /\
    NoDup (issues v) /\
    ((exists e,
        events run = [EvCall (Status g) (Rejected e)] /\
        issues v = ["Repository verification failed: " ++ messageOr "Unknown error" e]) \/
     (exists status e,
        events run = [EvCall (GetRemotes g false) (Rejected e);
                      EvCall (Status g) (Fulfilled status)] /\
        issues v = ["Repository verification failed: " ++ messageOr "Unknown error" e]) \/
     (exists status remotes fetched,
        events run = [EvCall (Fetch g) fetched;
                      EvCall (GetRemotes g false) (Fulfilled remotes);
                      EvCall (Status g) (Fulfilled status)] /\
        issues v =
          ((match remotes with [] => ["No remote repositories configured"] | _ => [] end)
           ++ (match fetched with
               | Rejected _ => ["Cannot access remote repository"]
               | Fulfilled _ => []
               end))%list)).
Proof.
  unfold verifyRepository. run.
  repeat step.
  all: eexists; split; [reflexivity|]; split; [reflexivity|].
  all: split; [cbn; split; intros H; first [reflexivity | discriminate H]|].
  all: split; [cbn; repeat constructor; cbn; intuition discriminate|].
  all: first [ left; eexists; split; reflexivity
             | right; left; do 2 eexists; split; reflexivity
             | right; right; do 3 eexists; split; reflexivity ].
Qed.

Lemma verifyRepository_without_remotes :
  outcome (verifyRepository (world quiet) [] aService) =
    Fulfilled {| isValid := false; issues := ["No remote repositories configured"] |} /\
  calls (events (verifyRepository (world quiet) [] aService)) =
    [Status (git aService); GetRemotes (git aService) false; Fetch (git aService)].
Proof.
  destruct (verifyRepository_advisory (world quiet) [] aService)
    as (v & Hrun & _ & _ & _ & Hcases).
  split.
  - rewrite Hrun. vm_compute in Hrun. symmetry. exact Hrun.
  - destruct Hcases as [(e & Hevents & _) | [(s & e & Hevents & _)
                                            | (s & remotes & fetched & Hevents & _)]].
    + vm_compute in Hevents. discriminate Hevents.
    + vm_compute in Hevents. discriminate Hevents.
    + rewrite Hevents. reflexivity.
Defined.

Lemma originUrl_without_origin remotes :
  (forall r, In r remotes -> remote_name r <> "origin") ->
  originUrl remotes = "unknown".
Proof.
  intros Hnone. unfold originUrl.
  destruct (find (fun r => remote_name r =? "origin") remotes) as [r|] eqn:Hfind;
    [|reflexivity].
  apply find_some in Hfind. destruct Hfind as [Hin Hname].
  apply String.eqb_eq in Hname. elim (Hnone r Hin Hname).
Qed.

(** C8: when the queries of [getRepositoryInfo] are answered and the
    remote list has no remote named origin (in particular when it is
    empty), the information returned has the remote "unknown". *)
Theorem getRepositoryInfo_remote_unknown env h self remotes :
  let run := getRepositoryInfo env h self in
  In (EvCall (GetRemotes (git self) true) (Fulfilled remotes)) (events run) ->
  (forall r, In r remotes -> remote_name r <> "origin") ->
  allFulfilled (events run) = true ->
  exists info, outcome run = Fulfilled info /\ remote info = "unknown".
Proof.
  unfold getRepositoryInfo, promiseAll4. run.
  do 4 answer.
  all: try solve [leaf].
  all: destruct (log_latest value1) as [[? [|] ? ?]|]; run.
  all: intros Hremotes Hnone _; happened; subst.
  all: eexists; split; [reflexivity|]; cbn; apply originUrl_without_origin; assumption.
Qed.

Lemma getRepositoryInfo_remote_unknown_no_remotes :
  exists info,
    outcome (getRepositoryInfo (world quiet) [] aService) = Fulfilled info /\
    remote info = "unknown".
Proof.
  apply (getRepositoryInfo_remote_unknown (world quiet) [] aService []).
  - cbn. auto.
  - intros r [].
  - reflexivity.
Defined.

End GitContentServiceFacts.

Module RainfallContentSyncServiceFacts.
Import RainfallContentSyncService.

Ltac unfold_methods :=
  unfold sync, push, getStatus, initialize, initializeSubmodule, initializeStandaloneClone,
    isGitSubmodule, applyPathFilters, log, lengthOf.

Ltac open_config self :=
  destruct self as [[url path br ac incl excl [[|]|]] g].

(** C1: the result of [sync] and of [push] has [success] true exactly
    when its list of errors is empty. *)
Theorem result_success_iff_no_errors env h self commitMessage :
  (exists r, outcome (sync env h self) = Fulfilled r /\
             (success r = true <-> errors r = [])) /\
  (exists r, outcome (push commitMessage env h self) = Fulfilled r /\
             (success r = true <-> errors r = [])).
Proof.
  split; unfold_methods; open_config self; run.
  all: repeat step.
  all: eexists; split; [reflexivity|]; leaf.
Qed.

Lemma result_invariant_after_pull :
  (exists r, outcome (sync remoteAhead [] exampleService) = Fulfilled r /\
             (success r = true <-> errors r = [])) /\
  (exists r, outcome (push None remoteAhead [] exampleService) = Fulfilled r /\
             (success r = true <-> errors r = [])).
Proof.
  exact (result_success_iff_no_errors remoteAhead [] exampleService None).
Defined.



(** The failure after a fulfilled pull: when [includePaths] was given as
    [undefined], reading its length throws, and the result is a failure that
    keeps the pulled files. *)
Example sync_undefined_includePaths :
  outcome (sync remoteAhead [] (serviceOf includePathsUndefined)) =
    Fulfilled {| success := false; changes := ["a.json"; "b.json"];
                 errors := [typeErrorLength]; timestamp := 0%Z |}.
Proof. reflexivity. Qed.

(** C3: with [autoCommit] false (or [undefined]), [push] reports the
    failure "Push operation requires autoCommit to be enabled" and makes
    no call at all: no client is built, no status is queried, nothing is
    staged, committed or pushed. *)
Theorem push_requires_autoCommit env h self commitMessage :
  truthy (autoCommit (config self)) = false ->
  let run := push commitMessage env h self in
  outcome run =
    Fulfilled {| success := false; changes := [];
                 errors := ["Push operation requires autoCommit to be enabled"];
                 timestamp := clock env h |} /\
  stateAfter run = self /\
  calls (events run) = [].
Proof.
  unfold_methods; open_config self; run.
  all: destruct ac as [[|]|]; run; intros Hgate; try discriminate Hgate.
  all: repeat split.
Qed.

Lemma push_requires_autoCommit_dirty :
  outcome (push None dirtyWorkingCopy [] (serviceOf autoCommitOff)) =
    Fulfilled {| success := false; changes := [];
                 errors := ["Push operation requires autoCommit to be enabled"];
                 timestamp := 0%Z |} /\
  stateAfter (push None dirtyWorkingCopy [] (serviceOf autoCommitOff)) =
    serviceOf autoCommitOff /\
  calls (events (push None dirtyWorkingCopy [] (serviceOf autoCommitOff))) = [].
Proof.
  apply (push_requires_autoCommit dirtyWorkingCopy [] (serviceOf autoCommitOff) None).
  reflexivity.
Defined.

(** C4: with [autoCommit] enabled, [push] first builds a client for the
    content directory and, when no call is rejected, queries the status.
    If the status reports no file, the result is a success with no change
    and no error, and nothing is staged, committed or pushed.  Otherwise,
    when no call is rejected, [push] stages ".", commits with the given
    message (or, when none or an empty one is given, with "Content sync
    update - " and the ISO rendering of the clock read just before the
    commit), pushes to origin on the configured branch, in that order, and
    returns the paths of the files of that status query, in its order. *)
Theorem push_stages_commits_pushes env h self commitMessage :
  truthy (autoCommit (config self)) = true ->
  let run := push commitMessage env h self in
  let g := contentGit self in
  (exists rest, calls (events run) = NewSimpleGit (baseDir g) :: rest) /\
  (allFulfilled (events run) = true ->
     exists status, In (EvCall (Status g) (Fulfilled status)) (events run)) /\
  (forall status, In (EvCall (Status g) (Fulfilled status)) (events run) ->
  (status_files status = [] ->
     outcome run = Fulfilled {| success := true; changes := []; errors := [];
                                timestamp := clock env h |} /\
     calls (events run) = [NewSimpleGit (baseDir g); Status g]) /\
  (status_files status <> [] -> allFulfilled (events run) = true ->
     exists message,
       calls (events run) =
         [NewSimpleGit (baseDir g); Status g; Add g "."; Commit g message;
          Push g "origin" (branch (config self))] /\
       (forall given, commitMessage = Some given -> given <> "" -> message = given) /\
       (commitMessage = None \/ commitMessage = Some "" ->
          exists d, readJustBefore d (Commit g message) (events run) /\
                    message = "Content sync update - " ++ toISOString env d) /\
       outcome run =
         Fulfilled {| success := true; changes := map file_path (status_files status);
                      errors := []; timestamp := clock env h |})).
Proof.
  unfold contentGit.
  unfold_methods; open_config self; run.
  all: destruct ac as [[|]|]; run; intros Hgate; try discriminate Hgate.
  all: repeat step.
  all: split; [eexists; reflexivity|].
  all: split; [intros Hall; first [discriminate Hall | eexists; cbn; auto 10]|].
  all: intros status.
  all: try solve [leaf].
  all: intros Hstatus; happened; subst.
  all: match goal with H : status_files _ = _ :: _ |- _ => rewrite H in * end.
  all: cbn.
  all: split; [intros Hnone; discriminate Hnone|].
  all: intros _ _; eexists; split; [reflexivity|].
  all: split; [intros given Hgiven Hnonempty; congruence|].
  all: split; [|reflexivity].
  all: intros Hdefault; try solve [happened; discriminate].
  all: eexists; split; [|reflexivity].
  all: unfold readJustBefore.
  all: first [ eexists [_]; do 2 eexists; reflexivity
             | eexists [_; _; _]; do 2 eexists; reflexivity ].
Qed.

Lemma push_default_message :
  calls (events (push None dirtyWorkingCopy [] exampleService)) =
    [NewSimpleGit (Some "./out"); Status (contentGit exampleService);
     Add (contentGit exampleService) ".";
     Commit (contentGit exampleService) "Content sync update - 1970-01-01T00:00:00.000Z";
     Push (contentGit exampleService) "origin" (Some "main")] /\
  outcome (push None dirtyWorkingCopy [] exampleService) =
    Fulfilled {| success := true; changes := ["a.json"; "b.json"]; errors := [];
                 timestamp := 0%Z |}.
Proof.
  destruct (push_stages_commits_pushes dirtyWorkingCopy [] exampleService None eq_refl)
    as (_ & Hqueried & Hpushed).
  destruct (Hqueried eq_refl) as [status Hstatus].
  destruct (Hpushed status Hstatus) as [_ Hdirty].
  assert (Hfiles : status = twoModified) by (vm_compute in Hstatus; happened; subst; reflexivity).
  subst status.
  destruct (Hdirty ltac:(discriminate) eq_refl) as (message & Hcalls & _ & Hdefault & Hrun).
  destruct (Hdefault (or_introl eq_refl)) as (d & _ & Hmessage).
  subst message. split; [exact Hcalls | exact Hrun].
Defined.







(** The constructor stores the merged object, unless the client library
    refuses to build a client. *)
Lemma constructor_run {S} input env h (s0 : S) :
  outcome (constructor input env h s0) =
    match respond env (NewSimpleGit None) h with
    | Fulfilled _ => Fulfilled (serviceOf input)
    | Rejected e => Rejected e
    end.
Proof.
  unfold constructor. run. answer; reflexivity.
Qed.

(** No method assigns a field of [this]. *)
Lemma methods_keep_this env h self commitMessage :
  stateAfter (initialize env h self) = self /\
  stateAfter (sync env h self) = self /\
  stateAfter (push commitMessage env h self) = self /\
  stateAfter (getStatus env h self) = self.
Proof.
  repeat split; unfold_methods; open_config self; run.
  all: repeat step.
  all: reflexivity.
Qed.

(** C9: from an argument with the two required fields only, the
    constructor stores those two fields with branch "main", autoCommit
    true, no include path, the exclude paths .git, node_modules and
    .DS_Store, and verbose false; it raises only if the client library
    does.  The merge happens in the constructor alone: [initialize],
    [sync], [push] and [getStatus] leave the service, and so its
    configuration, as they found it. *)
Theorem constructor_merges_defaults url path :
  withDefaults (requiredOnly url path) =
    {| ceresRepositoryUrl := url; localContentPath := path;
       branch := Some "main"; autoCommit := Some true; includePaths := Some [];
       excludePaths := Some [".git"; "node_modules"; ".DS_Store"];
       verbose := Some false |} /\
  (forall S env h (s0 : S),
     match outcome (constructor (requiredOnly url path) env h s0) with
     | Fulfilled self => config self = withDefaults (requiredOnly url path)
     | Rejected e => respond env (NewSimpleGit None) h = Rejected e
     end) /\
  (forall env h self commitMessage,
     config (stateAfter (initialize env h self)) = config self /\
     config (stateAfter (sync env h self)) = config self /\
     config (stateAfter (push commitMessage env h self)) = config self /\
     config (stateAfter (getStatus env h self)) = config self).
Proof.
  split; [reflexivity|]. split.
  - intros S env h s0. rewrite constructor_run.
    destruct (respond env (NewSimpleGit None) h); reflexivity.
  - intros env h self commitMessage.
    destruct (methods_keep_this env h self commitMessage) as (Hi & Hs & Hp & Hg).
    rewrite Hi, Hs, Hp, Hg. repeat split.
Qed.

Lemma constructor_defaults_scenario_A :
  config exampleService =
    {| ceresRepositoryUrl := "https://example/repo.git"; localContentPath := "./out";
       branch := Some "main"; autoCommit := Some true; includePaths := Some [];
       excludePaths := Some [".git"; "node_modules"; ".DS_Store"];
       verbose := Some false |}.
Proof.
  exact (proj1 (constructor_merges_defaults "https://example/repo.git" "./out")).
Defined.

(** A key that is present in the argument is stored with the value given,
    whatever that value is. *)
Lemma present_key_stored {T} (dflt : T) (p : OptionalProperty T) v :
  p = Present v -> spreadOver dflt p = v.
Proof. intros Hkey. rewrite Hkey. reflexivity. Qed.

(** C10: the defaults apply to absent keys only.  In the service the
    constructor builds, an optional key that was present in the argument
    with the value [undefined] holds [undefined], not its default. *)
Theorem explicit_undefined_survives_merge {S} input env h (s0 : S) self :
  outcome (constructor input env h s0) = Fulfilled self ->
  (ContentSyncConfig.branch input = Present None ->
     branch (config self) = None) /\
  (ContentSyncConfig.autoCommit input = Present None ->
     autoCommit (config self) = None) /\
  (ContentSyncConfig.includePaths input = Present None ->
     includePaths (config self) = None) /\
  (ContentSyncConfig.excludePaths input = Present None ->
     excludePaths (config self) = None) /\
  (ContentSyncConfig.verbose input = Present None ->
     verbose (config self) = None).
Proof.
  rewrite constructor_run.
  destruct (respond env (NewSimpleGit None) h); [|discriminate].
  intros Hbuilt. injection Hbuilt as Hself. subst self.
  unfold serviceOf, withDefaults. cbn.
  repeat split; intros Hkey; exact (present_key_stored _ _ _ Hkey).
Qed.

Lemma branch_undefined_stored :
  outcome (constructor branchUndefined (world quiet) [] tt) =
    Fulfilled (serviceOf branchUndefined) /\
  branch (config (serviceOf branchUndefined)) = None.
Proof.
  split; [reflexivity|].
  exact (proj1 (explicit_undefined_survives_merge branchUndefined (world quiet) [] tt
                  (serviceOf branchUndefined) eq_refl) eq_refl).
Defined.

End RainfallContentSyncServiceFacts.

(** * More about the code *)

(** ** GitContentService, continued *)

(** An event is one of those of an explicit trace. *)
Ltac among :=
  match goal with
  | |- EvCall ?c _ = EvCall ?x _ \/ _ => left; unify x c; reflexivity
  | |- _ = _ \/ _ => left; reflexivity
  | |- _ \/ _ => right; among
  end.

Module GitContentServiceMore.
Import GitContentService.

(** X1: [getBranchDifference] always fetches first, and queries the
    status exactly when the fetch is fulfilled; it calls nothing else.  A
    rejected fetch or status query is raised as "Failed to get branch
    difference: " followed by its message; when both are fulfilled the
    result carries the ahead and behind counts of that status, and
    [upToDate] exactly when both are zero. *)
Theorem getBranchDifference_fetches_first env h self :
  let run := getBranchDifference env h self in
  let g := git self in
  let wrapped e :=
    Rejected (ErrorObj ("Failed to get branch difference: " ++ messageOr "Unknown error" e)) in
  (exists e,
     events run = [EvCall (Fetch g) (Rejected e)] /\ outcome run = wrapped e) \/
  (exists fetched e,
     events run = [EvCall (Status g) (Rejected e); EvCall (Fetch g) (Fulfilled fetched)] /\
     outcome run = wrapped e) \/
  (exists fetched status,
     events run = [EvCall (Status g) (Fulfilled status); EvCall (Fetch g) (Fulfilled fetched)] /\
     exists d,
       outcome run = Fulfilled d /\
       ahead d = status_ahead status /\ behind d = status_behind status /\
       (upToDate d = true <-> status_ahead status = 0 /\ status_behind status = 0)).
Proof.
  unfold getBranchDifference. run.
  repeat step.
  - right. right. do 2 eexists. split; [reflexivity|].
    eexists. split; [reflexivity|]. cbn.
    repeat split; try (rewrite andb_true_iff, !Nat.eqb_eq in *; tauto).
  - right. left. do 2 eexists. split; reflexivity.
  - left. eexists. split; reflexivity.
Qed.

(** X2: [getRepositoryInfo] always issues its four queries (current
    branch, remotes, last log entry, status), also when one of them is
    rejected.  It returns when all four are fulfilled, and otherwise raises
    "Failed to get repository info: " followed by the message of a rejected
    query. *)
Theorem getRepositoryInfo_asks_everything env h self :
  let run := getRepositoryInfo env h self in
  let g := git self in
  calls (events run) =
    [Revparse g ["--abbrev-ref"; "HEAD"]; GetRemotes g true; Log g 1; Status g] /\
  (allFulfilled (events run) = true -> exists info, outcome run = Fulfilled info) /\
  (allFulfilled (events run) = false ->
     exists c e, In (EvCall c (Rejected e)) (events run) /\
       outcome run =
         Rejected (ErrorObj ("Failed to get repository info: "
                             ++ messageOr "Unknown error" e))).
Proof.
  unfold getRepositoryInfo, promiseAll4. run.
  do 4 answer.
  all: try (destruct (log_latest value1) as [[? [|] ? ?]|]; run).
  all: split; [reflexivity|]; split; intros Hall; try discriminate Hall.
  all: try solve [eexists; reflexivity].
  all: do 2 eexists; split; [|reflexivity]; cbn; among.
Qed.

(** X3: the last commit [getRepositoryInfo] reports.  Without a commit it
    has an empty hash, message and author and a reading of the clock as its
    date.  Otherwise hash, message and author are those of the latest log
    entry; the date is the entry's date parsed, and the clock is then not
    read at all, unless that date is the empty string, in which case it is
    a reading of the clock. *)
Theorem getRepositoryInfo_last_commit env h self log info :
  let run := getRepositoryInfo env h self in
  In (EvCall (Log (git self) 1) (Fulfilled log)) (events run) ->
  outcome run = Fulfilled info ->
  (log_latest log = None ->
     exists d, In (EvNewDate d) (events run) /\
       lastCommit info = {| hash := ""; message := ""; author := ""; date := d |}) /\
  (forall line, log_latest log = Some line ->
     hash (lastCommit info) = log_hash line /\
     message (lastCommit info) = log_message line /\
     author (lastCommit info) = log_author_name line /\
     (log_date line <> "" ->
        date (lastCommit info) = parseDate env (log_date line) /\
        forall d, ~ In (EvNewDate d) (events run)) /\
     (log_date line = "" -> In (EvNewDate (date (lastCommit info))) (events run))).
Proof.
  unfold getRepositoryInfo, promiseAll4. run.
  do 4 answer.
  all: try solve [leaf].
  all: destruct (log_latest value1) as [[h0 [|c0 d0] m0 a0]|] eqn:Hlatest; run.
  all: intros Hlog Hinfo; happened; subst; cbn.
  all: rewrite Hlatest.
  all: split; [intros Hnone; try discriminate Hnone|intros line Hline; try discriminate Hline].
  all: try solve [eexists; split; [cbn; auto 10|reflexivity]].
  all: injection Hline as <-; cbn.
  all: repeat split; try (intros; congruence); try (intros; cbn; auto 10).
  all: try match goal with
         | |- match ?s with _ => _ end = ?s => destruct s; reflexivity
         end.
  all: intros Hread; happened.
Qed.

Lemma originUrl_first_origin before origin after :
  (forall r, In r before -> remote_name r <> "origin") ->
  remote_name origin = "origin" ->
  originUrl (before ++ origin :: after)%list =
    orElse (Some (refs_fetch (remote_refs origin))) "unknown".
Proof.
  intros Hbefore Horigin. unfold originUrl.
  induction before as [|r before IH]; cbn [app find].
  - rewrite Horigin. reflexivity.
  - destruct (String.eqb_spec (remote_name r) "origin") as [Hr|Hr].
    + elim (Hbefore r (or_introl eq_refl) Hr).
    + apply IH. intros x Hx. apply Hbefore. right. exact Hx.
Qed.

(** X4: the remote [getRepositoryInfo] reports is the fetch URL of the
    first remote named origin, wherever it stands in the list, and
    "unknown" when that URL is the empty string. *)
Theorem getRepositoryInfo_remote_of_origin env h self before origin after info :
  let run := getRepositoryInfo env h self in
  In (EvCall (GetRemotes (git self) true) (Fulfilled (before ++ origin :: after)%list))
     (events run) ->
  (forall r, In r before -> remote_name r <> "origin") ->
  remote_name origin = "origin" ->
  outcome run = Fulfilled info ->
  (refs_fetch (remote_refs origin) <> "" -> remote info = refs_fetch (remote_refs origin)) /\
  (refs_fetch (remote_refs origin) = "" -> remote info = "unknown").
Proof.
  unfold getRepositoryInfo, promiseAll4. run.
  do 4 answer.
  all: try solve [leaf].
  all: destruct (log_latest value1) as [[h0 [|c0 d0] m0 a0]|] eqn:Hlatest; run.
  all: intros Hremotes Hbefore Horigin Hinfo; happened; subst; cbn.
  all: rewrite (originUrl_first_origin _ _ _ Hbefore Horigin).
  all: destruct (refs_fetch (remote_refs origin)); cbn; split; congruence.
Qed.

(** What a caller of [verifyRepository] can rely on: it returns, and finds
    the repository valid only if nothing was rejected and a remote is
    configured. *)
Lemma verifyRepository_for_its_caller env h self :
  let run := verifyRepository env h self in
  exists v,
    outcome run = Fulfilled v /\
    (isValid v = true ->
     allFulfilled (events run) = true /\
     exists remote remotes,
       In (EvCall (GetRemotes (git self) false) (Fulfilled (remote :: remotes))) (events run)) /\
    (isValid v = false -> issues v <> []).
Proof.
  unfold verifyRepository. run.
  repeat step.
  all: eexists; split; [reflexivity|]; cbn.
  all: split; intros Hv; try discriminate Hv.
  all: first [ discriminate | split; [reflexivity|]; do 2 eexists; among ].
Qed.

Lemma getBranchDifference_in_step :
  calls (events (getBranchDifference (world quiet) [] aService)) =
    [Fetch (git aService); Status (git aService)] /\
  outcome (getBranchDifference (world quiet) [] aService) =
    Fulfilled {| ahead := 0; behind := 0; upToDate := true |}.
Proof.
  destruct (getBranchDifference_fetches_first (world quiet) [] aService)
    as [(e & Hevents & _) | [(f & e & Hevents & _) | (f & status & Hevents & d & Hrun & _)]].
  - vm_compute in Hevents. discriminate Hevents.
  - apply (f_equal (hd (EvNewDate 0%Z))) in Hevents. vm_compute in Hevents. happened.
  - split; [rewrite Hevents; reflexivity|].
    rewrite Hrun. vm_compute in Hrun. symmetry. exact Hrun.
Defined.

Lemma getRepositoryInfo_first_commit :
  exists info,
    outcome (getRepositoryInfo clonedFromOrigin [] aService) = Fulfilled info /\
    hash (lastCommit info) = "4f2a9c1" /\
    message (lastCommit info) = "Initial commit" /\
    author (lastCommit info) = "Ada".
Proof.
  eexists. split; [reflexivity|].
  destruct (getRepositoryInfo_last_commit clonedFromOrigin [] aService
              {| log_latest := Some firstCommit |} _
              ltac:(vm_compute; auto 10) eq_refl)
    as [_ Hline].
  destruct (Hline firstCommit eq_refl) as (Hhash & Hmessage & Hauthor & _).
  repeat split; assumption.
Defined.

Lemma getRepositoryInfo_second_remote_is_origin :
  exists info,
    outcome (getRepositoryInfo clonedFromOrigin [] aService) = Fulfilled info /\
    remote info = "https://example/repo.git".
Proof.
  eexists. split; [reflexivity|].
  destruct (getRepositoryInfo_remote_of_origin clonedFromOrigin [] aService
              [upstreamRemote] originRemote [] _
              ltac:(vm_compute; auto 10)
              ltac:(intros r [<-|[]]; vm_compute; discriminate)
              eq_refl eq_refl)
    as [Hurl _].
  exact (Hurl ltac:(vm_compute; discriminate)).
Defined.

End GitContentServiceMore.

(** ** RainfallContentSyncService, continued *)

Module RainfallContentSyncServiceMore.
Import RainfallContentSyncService.
Import RainfallContentSyncServiceFacts.

(** X5: [getStatus] asks the working copy only.  It always builds a
    client for the content directory, then queries the status, then the
    current branch, each when the one before is fulfilled, and makes no
    other call: it never fetches.  The first rejected call ends it and is
    raised as "Failed to get sync status: " followed by its message; when
    nothing is rejected all three calls are made and it returns a report. *)
Theorem getStatus_is_local env h self :
  let run := getStatus env h self in
  let g := contentGit self in
  let client := NewSimpleGit (baseDir g) in
  let branchQuery := Revparse g ["--abbrev-ref"; "HEAD"] in
  let wrapped e :=
    Rejected (ErrorObj ("Failed to get sync status: " ++ messageOr "Unknown error" e)) in
  (exists e,
     In (EvCall client (Rejected e)) (events run) /\
     calls (events run) = [client] /\ outcome run = wrapped e) \/
  (exists e,
     In (EvCall (Status g) (Rejected e)) (events run) /\
     calls (events run) = [client; Status g] /\ outcome run = wrapped e) \/
  (exists e,
     In (EvCall branchQuery (Rejected e)) (events run) /\
     calls (events run) = [client; Status g; branchQuery] /\ outcome run = wrapped e) \/
  (allFulfilled (events run) = true /\
   calls (events run) = [client; Status g; branchQuery] /\
   exists report, outcome run = Fulfilled report).
Proof.
  unfold contentGit.
  unfold_methods; open_config self; run.
  all: repeat step.
  all: first
    [ left; eexists; split; [cbn; auto 10|split; reflexivity]
    | right; left; eexists; split; [cbn; auto 10|split; reflexivity]
    | right; right; left; eexists; split; [cbn; auto 10|split; reflexivity]
    | right; right; right; split; [reflexivity|]; split; [reflexivity|];
      eexists; reflexivity ].
Qed.

(** X6: what [getStatus] reports from the answers it got: the local
    branch is the answer of rev-parse, the remote branch is "origin/"
    followed by the configured branch, [upToDate] holds exactly when the
    status is neither ahead nor behind, [hasLocalChanges] exactly when the
    status lists a file, and [lastSync] is a reading of the clock made
    during this call (not the time of a past synchronisation). *)
Theorem getStatus_report env h self status name :
  let run := getStatus env h self in
  let g := contentGit self in
  In (EvCall (Status g) (Fulfilled status)) (events run) ->
  In (EvCall (Revparse g ["--abbrev-ref"; "HEAD"]) (Fulfilled name)) (events run) ->
  exists report,
    outcome run = Fulfilled report /\
    localBranch report = name /\
    remoteBranch report = "origin/" ++ showString (branch (config self)) /\
    (upToDate report = true <-> status_ahead status = 0 /\ status_behind status = 0) /\
    (hasLocalChanges report = true <-> status_files status <> []) /\
    In (EvNewDate (lastSync report)) (events run).
Proof.
  unfold contentGit.
  unfold_methods; open_config self; run.
  all: repeat step.
  all: try solve [leaf].
  all: intros Hstatus Hname; happened; subst.
  all: eexists; split; [reflexivity|]; cbn.
  all: split; [reflexivity|]; split; [reflexivity|].
  all: split; [rewrite andb_true_iff, !Nat.eqb_eq; tauto|].
  all: split; [|auto].
  all: destruct (status_files status); cbn; split; intros; congruence.
Qed.

(** X7: [push] stops at the first rejected call: that call is the last one
    it makes, and the result is a failure with no changes, the message of
    the rejection as its only error, and the time at which [push] was
    entered. *)
Theorem push_stops_at_first_rejection env h self commitMessage c e :
  let run := push commitMessage env h self in
  In (EvCall c (Rejected e)) (events run) ->
  (exists before, calls (events run) = (before ++ [c])%list) /\
  outcome run =
    Fulfilled {| success := false; changes := [];
                 errors := [messageOr "Unknown error during push" e];
                 timestamp := clock env h |}.
Proof.
  unfold_methods; open_config self; run.
  all: repeat step.
  all: try solve [leaf].
  all: intros Hrejected; happened; subst.
  all: split; [|reflexivity].
  all: first [ exists []; reflexivity | eexists [_]; reflexivity
             | eexists [_; _]; reflexivity | eexists [_; _; _]; reflexivity
             | eexists [_; _; _; _]; reflexivity ].
Qed.

(** X8: with verbose off, [sync] and [push] write nothing to the console
    when they succeed, and when they fail exactly one line: an ISO time
    stamp of a clock reading of the run, "[ERROR]", and "Sync failed: " or
    "Push failed: " with the one error of the result. *)
Theorem failures_are_printed_when_quiet env h self commitMessage :
  truthy (verbose (config self)) = false ->
  (forall r, outcome (sync env h self) = Fulfilled r ->
     (success r = true -> printed (events (sync env h self)) = []) /\
     (success r = false ->
        exists d m, errors r = [m] /\ In (EvNewDate d) (events (sync env h self)) /\
          printed (events (sync env h self)) =
            [toISOString env d ++ " [ERROR] Sync failed: " ++ m])) /\
  (forall r, outcome (push commitMessage env h self) = Fulfilled r ->
     (success r = true -> printed (events (push commitMessage env h self)) = []) /\
     (success r = false ->
        exists d m, errors r = [m] /\
          In (EvNewDate d) (events (push commitMessage env h self)) /\
          printed (events (push commitMessage env h self)) =
            [toISOString env d ++ " [ERROR] Push failed: " ++ m])).
Proof.
  unfold printed.
  unfold_methods; open_config self; run.
  all: intros Hquiet; try discriminate Hquiet.
  all: split; repeat step.
  all: intros r Hr; injection Hr as Hr; subst r; cbn.
  all: split; intros Hsuccess; try discriminate Hsuccess; try reflexivity.
  all: do 2 eexists; split; [reflexivity|]; split; [|reflexivity]; auto 10.
Qed.

(** X9: with verbose off, [initialize] and [getStatus] never write to the
    console, whether they return or raise. *)
Theorem initialize_and_getStatus_are_silent env h self :
  truthy (verbose (config self)) = false ->
  printed (events (initialize env h self)) = [] /\
  printed (events (getStatus env h self)) = [].
Proof.
  unfold printed.
  unfold_methods; open_config self; run.
  all: intros Hquiet; try discriminate Hquiet.
  all: split; repeat step; reflexivity.
Qed.

Ltac same_call :=
  repeat match goal with
    | H : _ \/ _ |- _ => destruct H as [H | H]
    | H : False |- _ => destruct H
    | H : @eq Call _ _ |- _ => first [ discriminate H | injection H as ? ? ? ]
    end.

(** X10: [initialize] clones only into an empty directory: if it clones,
    it does so with the service's own client, from the configured URL into
    the configured directory, after the directory was listed and found
    empty, and the clone is the last of exactly four calls. *)
Theorem initialize_clones_only_into_empty env h self client repoPath localPath :
  let run := initialize env h self in
  let dir := localContentPath (config self) in
  In (Clone client repoPath localPath) (calls (events run)) ->
  client = git self /\ repoPath = ceresRepositoryUrl (config self) /\ localPath = dir /\
  In (EvCall (Readdir dir) (Fulfilled [])) (events run) /\
  calls (events run) =
    [EnsureDir dir; ReadFile (dir ++ "/.git") "utf8"; Readdir dir;
     Clone client repoPath localPath].
Proof.
  unfold_methods; open_config self; run.
  all: repeat step.
  all: intros Hclone; same_call; subst.
  all: repeat split; auto 10.
Qed.

(** X11: [initialize] returns exactly when no call but the read of the
    [.git] entry is rejected, and whatever it raises starts with "Failed to
    initialize content sync service: ". *)
Theorem initialize_tolerates_only_missing_git env h self :
  let run := initialize env h self in
  let gitFile := ReadFile (localContentPath (config self) ++ "/.git") "utf8" in
  (outcome run = Fulfilled tt <->
     forall c e, In (EvCall c (Rejected e)) (events run) -> c = gitFile) /\
  (forall thrown, outcome run = Rejected thrown ->
     exists m, thrown = ErrorObj ("Failed to initialize content sync service: " ++ m)).
Proof.
  unfold_methods; open_config self; run.
  all: repeat step.
  all: cbn; split; [split|].
  all: try match goal with
         | |- _ = _ -> forall _, _ => intros Hdone c e Hin; try discriminate Hdone;
                                       happened; subst; reflexivity
         | |- (forall _, _) -> _ = _ =>
             intros Honly;
             first [ repeat match goal with u : unit |- _ => destruct u end; reflexivity
                   | exfalso; pose proof (Honly _ _ (or_introl eq_refl)) as Hc; discriminate Hc ]
         | |- forall thrown, _ = _ -> _ =>
             intros thrown Hthrown; first [ discriminate Hthrown | injection Hthrown as <- ];
             eexists; reflexivity
         end.
Qed.

(** X12: the include and exclude lists change nothing in what [sync]
    does: with any two lists in their place it makes the same calls and
    has the same outcome; no file is filtered. *)
Theorem sync_ignores_path_lists env h self includes excludes :
  includePaths (config self) <> None -> excludePaths (config self) <> None ->
  outcome (sync env h (withPathLists includes excludes self)) = outcome (sync env h self) /\
  calls (events (sync env h (withPathLists includes excludes self))) =
    calls (events (sync env h self)).
Proof.
  unfold withPathLists.
  unfold_methods; open_config self; run.
  all: destruct incl as [incl|]; [|intros Hincl; elim Hincl; reflexivity].
  all: destruct excl as [excl|]; [|intros _ Hexcl; elim Hexcl; reflexivity].
  all: intros _ _; run.
  all: repeat step.
  all: split; reflexivity.
Qed.

(** X13: with autoCommit on, [push] stages files exactly when
    [hasUncommittedChanges] of GitContentService answers true on the same
    status. *)
Theorem push_acts_iff_uncommitted env1 h1 inspector env2 h2 self commitMessage status :
  truthy (autoCommit (config self)) = true ->
  In (EvCall (Status (GitContentService.git inspector)) (Fulfilled status))
     (events (GitContentService.hasUncommittedChanges env1 h1 inspector)) ->
  In (EvCall (Status (contentGit self)) (Fulfilled status))
     (events (push commitMessage env2 h2 self)) ->
  (outcome (GitContentService.hasUncommittedChanges env1 h1 inspector) = Fulfilled true <->
   In (Add (contentGit self) ".") (calls (events (push commitMessage env2 h2 self)))).
Proof.
  unfold contentGit, GitContentService.hasUncommittedChanges.
  unfold_methods; open_config self; run.
  all: destruct ac as [[|]|]; run; intros Hgate; try discriminate Hgate.
  all: repeat step.
  all: leaf.
Qed.


(** What a caller of [sync] and [push] can rely on: they return, and report
    success only if nothing was rejected. *)
Lemma sync_for_its_caller env h self :
  let run := sync env h self in
  exists r,
    outcome run = Fulfilled r /\
    (success r = true ->
     allFulfilled (events run) = true /\
     exists p,
       In (EvCall (Pull (contentGit self) "origin" (branch (config self))) (Fulfilled p))
          (events run) /\
       changes r = pull_files p).
Proof.
  unfold contentGit.
  unfold_methods; open_config self; run.
  all: repeat step.
  all: eexists; split; [reflexivity|]; cbn.
  all: intros Hs; try discriminate Hs.
  all: split; [reflexivity|].
  all: eexists; split; [among|cbn; congruence].
Qed.

Lemma push_for_its_caller env h self commitMessage :
  let run := push commitMessage env h self in
  exists r,
    outcome run = Fulfilled r /\
    (success r = true -> allFulfilled (events run) = true).
Proof.
  unfold_methods; open_config self; run.
  all: repeat step.
  all: eexists; split; [reflexivity|]; cbn.
  all: intros Hs; try discriminate Hs; reflexivity.
Qed.


Lemma getStatus_asks_the_working_copy :
  calls (events (getStatus (world quiet) [] exampleService)) =
    [NewSimpleGit (Some "./out"); Status (contentGit exampleService);
     Revparse (contentGit exampleService) ["--abbrev-ref"; "HEAD"]] /\
  exists report, outcome (getStatus (world quiet) [] exampleService) = Fulfilled report.
Proof.
  destruct (getStatus_is_local (world quiet) [] exampleService)
    as [(e & Hin & _) | [(e & Hin & _) | [(e & Hin & _) | (_ & Hcalls & Hreport)]]].
  1-3: vm_compute in Hin; happened.
  split; [exact Hcalls | exact Hreport].
Defined.

Lemma getStatus_report_clean :
  exists report,
    outcome (getStatus (world quiet) [] exampleService) = Fulfilled report /\
    localBranch report = "main" /\
    remoteBranch report = "origin/main" /\
    (upToDate report = true <-> 0 = 0 /\ 0 = 0) /\
    (hasLocalChanges report = true <-> @nil FileStatusResult <> []) /\
    In (EvNewDate (lastSync report)) (events (getStatus (world quiet) [] exampleService)).
Proof.
  apply (getStatus_report (world quiet) [] exampleService cleanStatus "main");
    vm_compute; auto 10.
Defined.

Lemma push_stops_at_refused_commit :
  (exists before,
     calls (events (push (Some "fix tokens") commitRefused [] exampleService)) =
       (before ++ [Commit (contentGit exampleService) "fix tokens"])%list) /\
  outcome (push (Some "fix tokens") commitRefused [] exampleService) =
    Fulfilled {| success := false; changes := [];
                 errors := ["pre-commit hook failed"]; timestamp := 0%Z |}.
Proof.
  apply (push_stops_at_first_rejection commitRefused [] exampleService (Some "fix tokens")
           (Commit (contentGit exampleService) "fix tokens")
           (ErrorObj "pre-commit hook failed")).
  vm_compute. auto 10.
Defined.

Lemma quiet_sync_prints_nothing :
  printed (events (sync remoteAhead [] exampleService)) = [].
Proof.
  destruct (failures_are_printed_when_quiet remoteAhead [] exampleService None eq_refl)
    as [Hsync _].
  destruct (Hsync _ eq_refl) as [Hsuccess _].
  exact (Hsuccess eq_refl).
Defined.

Lemma quiet_initialize_prints_nothing :
  printed (events (initialize (world quiet) [] exampleService)) = [] /\
  printed (events (getStatus (world quiet) [] exampleService)) = [].
Proof.
  exact (initialize_and_getStatus_are_silent (world quiet) [] exampleService eq_refl).
Defined.

Lemma initialize_clones_into_empty_directory :
  In (EvCall (Readdir "./out") (Fulfilled []))
     (events (initialize (world quiet) [] exampleService)) /\
  calls (events (initialize (world quiet) [] exampleService)) =
    [EnsureDir "./out"; ReadFile "./out/.git" "utf8"; Readdir "./out";
     Clone {| baseDir := None |} "https://example/repo.git" "./out"].
Proof.
  destruct (initialize_clones_only_into_empty (world quiet) [] exampleService
              {| baseDir := None |} "https://example/repo.git" "./out"
              ltac:(vm_compute; auto 10))
    as (_ & _ & _ & Hreaddir & Hcalls).
  split; [exact Hreaddir | exact Hcalls].
Defined.

Lemma sync_ignores_docs_filter :
  outcome (sync remoteAhead [] (withPathLists ["docs"] [] exampleService)) =
    outcome (sync remoteAhead [] exampleService) /\
  calls (events (sync remoteAhead [] (withPathLists ["docs"] [] exampleService))) =
    calls (events (sync remoteAhead [] exampleService)).
Proof.
  apply (sync_ignores_path_lists remoteAhead [] exampleService ["docs"] []);
    vm_compute; discriminate.
Defined.

Lemma push_stages_the_dirty_copy :
  outcome (GitContentService.hasUncommittedChanges dirtyWorkingCopy [] aService)
    = Fulfilled true <->
  In (Add (contentGit exampleService) ".")
     (calls (events (push None dirtyWorkingCopy [] exampleService))).
Proof.
  apply (push_acts_iff_uncommitted dirtyWorkingCopy [] aService dirtyWorkingCopy []
           exampleService None twoModified);
    vm_compute; auto 10.
Defined.


End RainfallContentSyncServiceMore.

(** ** The rest of GitContentService *)

Ltac wide :=
  cbv beta iota zeta delta
    [Wide.ask Wide.readClock Wide.pure bind ret catch raise get put
     Wide.Monad_Run Wide.MonadExc_Run Wide.MonadState_Run Wide.ending Wide.happenings];
  cbn.

Ltac replied :=
  match goal with
  | |- context [Wide.reply ?w ?o ?past] =>
      lazymatch past with
      | context [Wide.reply _ _ _] => fail
      | _ => destruct (Wide.reply w o past) eqn:?
      end
  end; wide.

Lemma Op_eq_dec (o1 o2 : Wide.Op) : {o1 = o2} + {o1 <> o2}.
Proof.
  decide equality;
    repeat first [ apply Call_eq_dec | apply string_dec | apply Nat.eq_dec
                 | apply Bool.bool_dec | apply list_eq_dec | decide equality ].
Qed.

Lemma Asked_inj o (a1 a2 : Settled (Wide.Answer o)) :
  Wide.Asked o a1 = Wide.Asked o a2 -> a1 = a2.
Proof.
  intros H. inversion H as [H1].
  exact (inj_pair2_eq_dec Wide.Op Op_eq_dec (fun o => Settled (Wide.Answer o)) o a1 a2 H1).
Qed.

(** Two records of operations are equal when the operations are, and the
    answers then. *)
Lemma Asked_eq o1 (a1 : Settled (Wide.Answer o1)) o2 (a2 : Settled (Wide.Answer o2)) :
  Wide.Asked o1 a1 = Wide.Asked o2 a2 ->
  exists e : o1 = o2, eq_rect o1 (fun o => Settled (Wide.Answer o)) a1 o2 e = a2.
Proof.
  intros H.
  assert (Ho : o1 = o2) by (inversion H; reflexivity).
  destruct Ho. exists eq_refl. cbn. exact (Asked_inj _ _ _ H).
Qed.

Ltac occurred :=
  repeat match goal with
    | H : _ \/ _ |- _ => destruct H as [H | H]
    | H : False |- _ => destruct H
    | H : Wide.Asked ?o _ = Wide.Asked ?o _ |- _ => apply Asked_inj in H
    | H : Wide.Asked _ _ = Wide.Asked ?o _ |- _ =>
        is_var o; apply Asked_eq in H; destruct H as [?Ho H]; destruct Ho; cbn in H
    | H : Wide.Asked _ _ = _ |- _ => discriminate H
    | H : Wide.ClockRead _ = _ |- _ => first [ discriminate H | injection H as H ]
    | H : Wide.Printed _ = _ |- _ => first [ discriminate H | injection H as H ]
    | H : Wide.PrintedError _ = _ |- _ => first [ discriminate H | injection H as H ]
    | H : Fulfilled _ = Rejected _ |- _ => discriminate H
    | H : Rejected _ = Fulfilled _ |- _ => discriminate H
    | H : Fulfilled _ = Fulfilled _ |- _ => injection H as H
    | H : Rejected _ = Rejected _ |- _ => injection H as H
    end.

Module RestOfGitContentServiceFacts.
Import Wide Wide.RestOfGitContentService.

(** The loop over the files of a diff appends to each list the names of
    the files it counts for that list, in the order of the diff. *)
Lemma fold_classify files lists :
  fold_left classify files lists =
    {| modified := modified lists ++ map diff_file (filter countsAsModified files);
       added := added lists ++ map diff_file (filter countsAsAdded files);
       deleted := deleted lists ++ map diff_file (filter countsAsDeleted files) |}.
Proof.
  revert lists. induction files as [|file files IH]; intros lists; cbn [fold_left filter map].
  - rewrite !app_nil_r. destruct lists; reflexivity.
  - rewrite IH. unfold classify, push_back.
    destruct file as [name changes [|i] [|d] | name before after]; cbn;
      rewrite <- ?app_assoc; reflexivity.
Qed.

(** X15: how [getFileChanges] sorts the files of a diff: a text file with
    inserted and deleted lines, and every binary file, is modified; a text
    file with inserted lines only is added; one with deleted lines only is
    deleted; each list keeps the order of the diff. *)
Theorem getFileChanges_classifies w past self fromCommit toCommit diff :
  let run := getFileChanges fromCommit toCommit w past self in
  In (Asked (DiffSummary (git self) [fromCommit; toCommit]) (Fulfilled diff)) (happenings run) ->
  ending run =
    Returned {| modified := map diff_file (filter countsAsModified (diff_files diff));
                added := map diff_file (filter countsAsAdded (diff_files diff));
                deleted := map diff_file (filter countsAsDeleted (diff_files diff)) |}.
Proof.
  unfold getFileChanges. wide. replied.
  all: intros Hdiff; occurred; subst.
  rewrite fold_classify. reflexivity.
Qed.

Lemma classes_partition files :
  length (filter countsAsModified files) + length (filter countsAsAdded files)
  + length (filter countsAsDeleted files) + length (filter untouchedText files)
  = length files.
Proof.
  induction files as [|file files IH]; [reflexivity|].
  cbn [filter length].
  destruct file as [name changes [|i] [|d] | name before after]; cbn; lia.
Qed.

(** X16: [getFileChanges] reports every file of the diff in exactly one
    of its three lists, except the text files without an inserted or
    deleted line (a pure rename, a change of mode), which it does not
    report at all. *)
Theorem getFileChanges_reports_each_file_once w past self fromCommit toCommit diff lists :
  let run := getFileChanges fromCommit toCommit w past self in
  In (Asked (DiffSummary (git self) [fromCommit; toCommit]) (Fulfilled diff)) (happenings run) ->
  ending run = Returned lists ->
  length (modified lists) + length (added lists) + length (deleted lists)
  + length (filter untouchedText (diff_files diff))
  = length (diff_files diff).
Proof.
  unfold getFileChanges. wide. replied.
  all: intros Hdiff Hlists; occurred; subst; try discriminate Hlists.
  injection Hlists as <-. rewrite fold_classify.
  cbn. rewrite !length_map. apply classes_partition.
Qed.


Lemma dashed_has_no_colon_or_dot s c :
  In c (list_ascii_of_string (dashed s)) -> c <> ":"%char /\ c <> "."%char.
Proof.
  induction s as [|a s IH]; cbn [dashed list_ascii_of_string In]; [intros []|].
  intros [Hc|Hc]; [|exact (IH Hc)]. subst c.
  destruct (Ascii.eqb_spec a ":"), (Ascii.eqb_spec a "."); cbn; split; congruence.
Qed.

(** X17: when [createBackupBranch] returns, it has created the branch it
    names from HEAD and then checked out main, and nothing else.  The name
    is the one given, unless none or the empty string was given: then it is
    "backup-" followed by the ISO time stamp of the clock with every colon
    and dot replaced by a dash, so that no colon or dot is left in it. *)
Theorem createBackupBranch_names_the_branch w past self branchName name :
  let run := createBackupBranch branchName w past self in
  ending run = Returned name ->
  asked (happenings run) = [CheckoutBranch (git self) name "HEAD"; Checkout (git self) "main"] /\
  (forall given, branchName = Some given -> given <> "" -> name = given) /\
  (branchName = None \/ branchName = Some "" ->
     name = "backup-" ++ dashed (isoString w (time w past)) /\
     forall c, In c (list_ascii_of_string name) -> c <> ":"%char /\ c <> "."%char).
Proof.
  unfold createBackupBranch. wide.
  destruct branchName as [[|c0 given0]|]; cbn [orElse]; repeat replied.
  all: intros Hname; try discriminate Hname; injection Hname as <-.
  all: split; [reflexivity|]; split; [intros given Hgiven Hnonempty; congruence|].
  all: intros [Hnone|Hnone]; try discriminate Hnone.
  all: split; [reflexivity|].
  all: intros c Hc; cbn in Hc.
  all: repeat (destruct Hc as [Hc|Hc]; [subst c; split; discriminate|]).
  all: exact (dashed_has_no_colon_or_dot _ _ Hc).
Qed.

(** X18: when the return to main is rejected, [createBackupBranch]
    raises "Failed to create backup branch: " followed by the message, and
    the backup branch has been created and is left checked out. *)
Theorem createBackupBranch_can_strand w past self branchName e :
  let run := createBackupBranch branchName w past self in
  In (Asked (Checkout (git self) "main") (Rejected e)) (happenings run) ->
  ending run =
    Threw (ErrorObj ("Failed to create backup branch: " ++ messageOr "Unknown error" e)) /\
  exists name,
    In (Asked (CheckoutBranch (git self) name "HEAD") (Fulfilled tt)) (happenings run) /\
    asked (happenings run) =
      [CheckoutBranch (git self) name "HEAD"; Checkout (git self) "main"].
Proof.
  unfold createBackupBranch. wide.
  repeat replied.
  all: intros Hmain; occurred; subst.
  all: split; [reflexivity|].
  all: eexists; split; [|reflexivity].
  all: match goal with H : reply _ (CheckoutBranch _ _ _) _ = Fulfilled ?v |- _ => destruct v end.
  all: cbn; auto.
Qed.

(** X19: [cleanup] does nothing when called without options; it resets
    only when [resetChanges] is truthy and cleans only when
    [removeUntracked] is; with both it resets before it cleans; and when the
    reset is rejected it does not clean, and raises "Failed to cleanup
    repository: " followed by the message. *)
Theorem cleanup_resets_then_cleans w past self options :
  let run := cleanup options w past self in
  let g := git self in
  let reset := GitReset g ["--hard"; "HEAD"] in
  let clean := GitClean g "f" ["-d"] in
  (options = None -> ending run = Returned tt /\ asked (happenings run) = []) /\
  (forall given, options = Some given ->
     (forall o, In o (asked (happenings run)) ->
        (o = reset /\ truthy (resetChanges given) = true) \/
        (o = clean /\ truthy (removeUntracked given) = true)) /\
     (truthy (resetChanges given) = true -> truthy (removeUntracked given) = true ->
        (forall e, ~ In (Asked reset (Rejected e)) (happenings run)) ->
        asked (happenings run) = [reset; clean])) /\
  (forall e, In (Asked reset (Rejected e)) (happenings run) ->
     asked (happenings run) = [reset] /\
     ending run =
       Threw (ErrorObj ("Failed to cleanup repository: " ++ messageOr "Unknown error" e))).
Proof.
  unfold cleanup. wide.
  destruct options as [[[[|]|] [[|]|]]|]; wide; repeat replied.
  all: split; [intros Hnone; try discriminate Hnone; split; reflexivity|].
  all: split.
  all: try (intros e Hreset; occurred; subst; split; reflexivity).
  all: intros given Hgiven; try discriminate Hgiven; injection Hgiven as <-; cbn.
  all: split;
    [ intros o Ho; repeat (destruct Ho as [Ho|Ho]; [subst o; auto|]); destruct Ho
    | intros Hr Hc Hok; try discriminate Hr; try discriminate Hc; try reflexivity ].
  all: exfalso; eapply Hok; left; reflexivity.
Qed.

Lemma getFileChanges_of_mixed_diff :
  ending (getFileChanges "v1" "v2" (wideWorld calm) [] aService) =
    Returned {| modified := ["tokens.json"; "logo.png"]; added := ["new.md"];
                deleted := ["old.md"] |}.
Proof.
  apply (getFileChanges_classifies (wideWorld calm) [] aService "v1" "v2" mixedDiff).
  vm_compute. auto.
Defined.

Lemma getFileChanges_skips_the_rename :
  exists lists,
    ending (getFileChanges "v1" "v2" (wideWorld calm) [] aService) = Returned lists /\
    length (modified lists) + length (added lists) + length (deleted lists)
    + length (filter untouchedText (diff_files mixedDiff))
    = length (diff_files mixedDiff).
Proof.
  eexists. split; [reflexivity|].
  exact (getFileChanges_reports_each_file_once (wideWorld calm) [] aService "v1" "v2"
           mixedDiff _ ltac:(vm_compute; auto) eq_refl).
Defined.

Lemma createBackupBranch_default_name :
  asked (happenings (createBackupBranch None (wideWorld calm) [] aService)) =
    [CheckoutBranch (git aService) "backup-1970-01-01T00-00-00-000Z" "HEAD";
     Checkout (git aService) "main"].
Proof.
  destruct (createBackupBranch_names_the_branch (wideWorld calm) [] aService None
              "backup-1970-01-01T00-00-00-000Z" eq_refl)
    as [Hasked _].
  exact Hasked.
Defined.

Lemma createBackupBranch_without_main :
  ending (createBackupBranch (Some "before-sync") (wideWorld noMain) [] aService) =
    Threw (ErrorObj "Failed to create backup branch: pathspec 'main' did not match") /\
  In (Asked (CheckoutBranch (git aService) "before-sync" "HEAD") (Fulfilled tt))
     (happenings (createBackupBranch (Some "before-sync") (wideWorld noMain) [] aService)).
Proof.
  destruct (createBackupBranch_can_strand (wideWorld noMain) [] aService (Some "before-sync")
              (ErrorObj "pathspec 'main' did not match")
              ltac:(vm_compute; auto))
    as (Hthrew & name & Hbranch & _).
  split; [exact Hthrew|].
  vm_compute. auto.
Defined.

End RestOfGitContentServiceFacts.

(** ** The command line *)


Module CliFacts.
Import Wide Wide.Cli.
Import RainfallContentSyncService.ContentSyncConfig.

#[local] Arguments RainfallContentSyncService.sync : simpl never.
#[local] Arguments RainfallContentSyncService.push : simpl never.
#[local] Arguments RainfallContentSyncService.initialize : simpl never.
#[local] Arguments GitContentService.verifyRepository : simpl never.

Ltac cli :=
  cbv beta iota zeta delta
    [Wide.ask Wide.readClock Wide.pure Wide.consoleLog Wide.consoleError Wide.exit
     Wide.Cli.consoleError2 bind ret catch raise get put
     Wide.Monad_Run Wide.MonadExc_Run Wide.MonadState_Run Wide.ending Wide.happenings];
  cbn.

Ltac told :=
  match goal with
  | |- context [Wide.reply ?w ?o ?past] =>
      lazymatch past with
      | context [Wide.reply _ _ _] => fail
      | _ => destruct (Wide.reply w o past) eqn:?
      end
  end; cli.

(** X20: [loadConfig] always starts by asking whether the file exists and
    reads it exactly when it does.  It returns whenever the file is read and
    both required properties are truthy (neither absent, undefined nor
    empty), and only then: what it returns is the object read, property by
    property, after these two operations and no other. *)
Theorem loadConfig_validates w past configPath :
  let run := loadConfig configPath w past tt in
  (exists answer rest,
     happenings run = (rest ++ [Asked (PathExists configPath) answer])%list) /\
  (In (ReadJson configPath) (asked (happenings run)) <->
   In (Asked (PathExists configPath) (Fulfilled true)) (happenings run)) /\
  (forall parsed,
     In (Asked (ReadJson configPath) (Fulfilled parsed)) (happenings run) ->
     missing (parsed_ceresRepositoryUrl parsed) = false ->
     missing (parsed_localContentPath parsed) = false ->
     exists config, ending run = Returned config) /\
  (forall config,
     ending run = Returned config ->
     asked (happenings run) = [PathExists configPath; ReadJson configPath] /\
     exists parsed,
       In (Asked (ReadJson configPath) (Fulfilled parsed)) (happenings run) /\
       missing (parsed_ceresRepositoryUrl parsed) = false /\
       missing (parsed_localContentPath parsed) = false /\
       parsed_ceresRepositoryUrl parsed
         = RainfallContentSyncService.Present (Some (ceresRepositoryUrl config)) /\
       parsed_localContentPath parsed
         = RainfallContentSyncService.Present (Some (localContentPath config)) /\
       parsed_branch parsed = branch config /\
       parsed_autoCommit parsed = autoCommit config /\
       parsed_includePaths parsed = includePaths config /\
       parsed_excludePaths parsed = excludePaths config /\
       parsed_verbose parsed = verbose config).
Proof.
  unfold loadConfig. cli.
  told; [match goal with H : reply _ _ _ = Fulfilled ?b |- _ => destruct b end; cli|].
  1: told; [match goal with H : reply _ (ReadJson _) _ = Fulfilled ?p |- _ =>
              destruct p as [[|[[|? ?]|]] [|[[|? ?]|]] ? ? ? ? ?] end; cli|].
  all: split; [first [ eexists _, []; reflexivity | eexists _, [_]; reflexivity ]|].
  all: split;
    [ split; intros H; cbn in H |- *; occurred; try discriminate H; auto | ].
  all: split;
    [ intros ? H Hurl Hpath; cbn in H; occurred; subst; cbn in Hurl, Hpath;
      first [ discriminate Hurl | discriminate Hpath | eexists; reflexivity ] | ].
  all: intros ? H; try discriminate H; injection H as <-; cbn.
  split; [reflexivity|].
  eexists. split; [left; reflexivity|]. cbn. repeat split.
Qed.

(** X21: how [loadConfig] fails.  It never leaves the process, and
    whatever it throws starts with "Failed to load configuration: ".  When
    the file does not exist it is not read, and the message names the file
    and the init command; when the URL or the path is absent, undefined or
    empty the message is that of an invalid configuration; and a rejected
    operation is thrown with its message. *)
Theorem loadConfig_failures w past configPath :
  let run := loadConfig configPath w past tt in
  (forall code, ending run <> Exited code) /\
  (forall reason, ending run = Threw reason ->
     exists why, reason = ErrorObj ("Failed to load configuration: " ++ why)) /\
  (In (Asked (PathExists configPath) (Fulfilled false)) (happenings run) ->
     asked (happenings run) = [PathExists configPath] /\
     ending run =
       Threw (ErrorObj ("Failed to load configuration: Configuration file not found: "
                        ++ configPath ++ ". Run 'ceres-sync init' first."))) /\
  (forall parsed,
     In (Asked (ReadJson configPath) (Fulfilled parsed)) (happenings run) ->
     missing (parsed_ceresRepositoryUrl parsed) || missing (parsed_localContentPath parsed)
       = true ->
     ending run =
       Threw (ErrorObj "Failed to load configuration: Invalid configuration: missing required properties")) /\
  (forall o e, In (Asked o (Rejected e)) (happenings run) ->
     ending run =
       Threw (ErrorObj ("Failed to load configuration: " ++ messageOr "Unknown error" e))).
Proof.
  unfold loadConfig. cli.
  told; [match goal with H : reply _ _ _ = Fulfilled ?b |- _ => destruct b end; cli|].
  1: told; [match goal with H : reply _ (ReadJson _) _ = Fulfilled ?p |- _ =>
              destruct p as [[|[[|? ?]|]] [|[[|? ?]|]] ? ? ? ? ?] end; cli|].
  all: split; [intros ?; discriminate|].
  all: split; [intros ? H; try discriminate H; injection H as <-;
               eexists; reflexivity|].
  all: split; [intros H; occurred; try discriminate H; split; reflexivity|].
  all: split; [intros ? H; occurred; subst; try discriminate; cbn;
               intros Hm; try discriminate Hm; reflexivity|].
  all: intros ? ? H; cbn in H; occurred; subst; reflexivity.
Qed.

(** The events of the services show as operations, clock readings and
    lines on the standard output. *)
Lemma injected_rejected evs o e :
  In (Asked o (Rejected e)) (map inject evs) ->
  exists c, o = Known c /\ In (EvCall c (Rejected e)) evs.
Proof.
  induction evs as [|ev evs IH]; cbn; [intros []|].
  intros [H|H].
  - destruct ev as [c answer|d|l]; cbn in H; try discriminate H.
    occurred. subst answer. exists c. split; [reflexivity|left; reflexivity].
  - destruct (IH H) as (c & Ho & Hc). exists c. split; [exact Ho|right; exact Hc].
Qed.

Lemma rejection_seen evs c e :
  In (EvCall c (Rejected e)) evs -> allFulfilled evs = false.
Proof.
  unfold allFulfilled.
  induction evs as [|ev evs IH]; cbn; [intros []|].
  intros [H|H]; [subst ev; reflexivity|].
  rewrite (IH H). apply andb_false_r.
Qed.

Lemma injected_is_no_error evs line : ~ In (PrintedError line) (map inject evs).
Proof.
  induction evs as [|ev evs IH]; cbn; [intros []|].
  intros [H|H]; [destruct ev; discriminate H | exact (IH H)].
Qed.

Lemma injected_call evs c (answer : Settled (Resp c)) :
  In (EvCall c answer) evs -> In (Asked (Known c) answer) (map inject evs).
Proof.
  intros H. exact (in_map inject _ _ H).
Qed.

(** A loop that prints one line for each element. *)
Lemma forEach_prints {A} (f : A -> Run unit unit) (line : A -> Happening) array w past :
  (forall x past, f x w past tt = (Returned tt, tt, [line x])) ->
  forEach array f w past tt = (Returned tt, tt, rev (map line array)).
Proof.
  intros Hf. revert past.
  induction array as [|x rest IH]; intros past; [reflexivity|].
  cbn [forEach map rev]. cli. rewrite Hf, IH. reflexivity.
Qed.

(** What the commands can rely on when they load their configuration. *)
Lemma loadConfig_for_its_caller w past configPath :
  exists r evs,
    loadConfig configPath w past tt = (r, tt, evs) /\
    (forall code, r <> Exited code) /\
    (forall line, ~ In (PrintedError line) evs) /\
    (forall o e, In (Asked o (Rejected e)) evs -> exists reason, r = Threw reason).
Proof.
  unfold loadConfig. cli.
  told; [match goal with H : reply _ _ _ = Fulfilled ?b |- _ => destruct b end; cli|].
  1: told; [match goal with H : reply _ (ReadJson _) _ = Fulfilled ?p |- _ =>
              destruct p as [[|[[|? ?]|]] [|[[|? ?]|]] ? ? ? ? ?] end; cli|].
  all: do 2 eexists; split; [reflexivity|].
  all: split; [intros ?; discriminate|].
  all: split; [intros ? H; cbn in H; occurred|].
  all: intros ? ? H; cbn in H; occurred; eexists; reflexivity.
Qed.

#[local] Arguments loadConfig : simpl never.
#[local] Arguments forEach : simpl never.

(** The next component of a command: the configuration is loaded, a
    service is built, a method of a service is awaited, a list is printed. *)
Ltac loaded :=
  match goal with
  | |- context [loadConfig ?p ?w ?h tt] =>
      let r := fresh "r" in
      let evs := fresh "evs" in
      let E := fresh "E" in
      let Hexit := fresh "Hexit" in
      let Herr := fresh "Herr" in
      let Hrej := fresh "Hrej" in
      destruct (loadConfig_for_its_caller w h p) as (r & evs & E & Hexit & Herr & Hrej);
      rewrite E; clear E;
      destruct r as [?config|?reason|?code];
      [ | | exfalso; exact (Hexit _ eq_refl) ]; cli
  end.

Ltac built := unfold lift; cbn; told.

Ltac listed := erewrite forEach_prints by (intros; reflexivity); cli.

(** Where in the history of a command a happening can be. *)
Ltac sift :=
  repeat match goal with
    | H : _ \/ _ |- _ => destruct H as [H|H]
    | H : In _ (_ ++ _)%list |- _ => apply in_app_or in H; destruct H as [H|H]
    | H : In _ (_ :: _) |- _ => destruct H as [H|H]
    | H : In _ [] |- _ => destruct H
    | H : In _ (rev _) |- _ => rewrite <- in_rev in H
    | H : In (PrintedError _) (map inject _) |- _ => destruct (injected_is_no_error _ _ H)
    | H : In (Asked _ (Rejected _)) (map inject _) |- _ =>
        apply injected_rejected in H; destruct H as (?c & ? & H); subst
    | H : In _ (map _ _) |- _ => apply in_map_iff in H; destruct H as (? & H & _)
    end;
  occurred.

Ltac found := rewrite ?in_app_iff; cbn [In]; eauto 20.

Ltac impossible :=
  exfalso; sift;
  match goal with
  | Herr : forall line, ~ In (PrintedError line) ?evs, H : In (PrintedError _) ?evs |- _ =>
      exact (Herr _ H)
  | Hrej : forall o e, In (Asked o (Rejected e)) ?evs -> _, H : In (Asked _ (Rejected _)) ?evs
    |- _ => destruct (Hrej _ _ H) as [? Hr]; discriminate Hr
  | Hsucc : true = true -> _, H : In (EvCall _ (Rejected _)) _ |- _ =>
      apply rejection_seen in H;
      pose proof (Hsucc eq_refl) as Hall; unfold allFulfilled in *;
      first [ congruence | destruct Hall as [Hall ?]; congruence ]
  end.

Ltac exit_code :=
  split; [first [left; reflexivity | right; reflexivity]|];
  split;
  [ split;
    [ intros H; first [discriminate H | eexists; found]
    | intros [line H]; first [reflexivity | impossible] ]
  | intros o e H; first [reflexivity | impossible] ].

(** X22: the sync command never lets an exception escape: it returns or
    leaves the process with exit code 1.  It exits with 1 exactly when it
    wrote to the standard error, and always when an operation was
    rejected, be it while loading the configuration, building the service
    or synchronising. *)
Theorem sync_command_exit_code w past options :
  let run := Cli.sync options w past tt in
  (ending run = Returned tt \/ ending run = Exited 1) /\
  (ending run = Exited 1 <-> exists line, In (PrintedError line) (happenings run)) /\
  (forall o e, In (Asked o (Rejected e)) (happenings run) -> ending run = Exited 1).
Proof.
  unfold Cli.sync. cli.
  loaded.
  1: built.
  1: unfold callOn;
     match goal with
     | |- context [RainfallContentSyncService.sync ?env ?h ?self] =>
         generalize (RainfallContentSyncServiceMore.sync_for_its_caller env h self);
         destruct (RainfallContentSyncService.sync env h self) as [[out st] evs']
     end; unfold outcome, events; cbn; intros (res & -> & Hsucc); cbn.
  1: destruct (RainfallContentSyncService.success res) eqn:Hres; cli.
  1: destruct (RainfallContentSyncService.changes res) eqn:Hch; cli.
  2, 3: listed.
  all: exit_code.
Qed.

(** X24: the push command never lets an exception escape: it returns or
    leaves the process with exit code 1.  It exits with 1 exactly when it
    wrote to the standard error, and always when an operation was
    rejected. *)
Theorem push_command_exit_code w past options :
  let run := Cli.push options w past tt in
  (ending run = Returned tt \/ ending run = Exited 1) /\
  (ending run = Exited 1 <-> exists line, In (PrintedError line) (happenings run)) /\
  (forall o e, In (Asked o (Rejected e)) (happenings run) -> ending run = Exited 1).
Proof.
  unfold Cli.push. cli.
  loaded.
  1: built.
  1: unfold callOn;
     match goal with
     | |- context [RainfallContentSyncService.push ?m ?env ?h ?self] =>
         generalize (RainfallContentSyncServiceMore.push_for_its_caller env h self m);
         destruct (RainfallContentSyncService.push m env h self) as [[out st] evs']
     end; unfold outcome, events; cbn; intros (res & -> & Hsucc); cbn.
  1: destruct (RainfallContentSyncService.success res) eqn:Hres; cli.
  1: destruct (RainfallContentSyncService.changes res) eqn:Hch; cli.
  2, 3: listed.
  all: exit_code.
Qed.

(** X25: the verify command returns or leaves the process with exit code
    1, and never lets an exception escape.  It exits with 1 whenever an
    operation was rejected, and it returns only if the repository has at
    least one remote. *)
Theorem verify_command_exit_code w past options :
  let run := Cli.verify options w past tt in
  (ending run = Returned tt \/ ending run = Exited 1) /\
  (forall o e, In (Asked o (Rejected e)) (happenings run) -> ending run = Exited 1) /\
  (ending run = Returned tt ->
   exists git remote remotes,
     In (Asked (Known (GetRemotes git false)) (Fulfilled (remote :: remotes)))
        (happenings run)).
Proof.
  unfold Cli.verify. cli.
  loaded.
  1: built.
  1: unfold callOn;
     match goal with
     | |- context [GitContentService.verifyRepository ?env ?h ?self] =>
         generalize (GitContentServiceMore.verifyRepository_for_its_caller env h self);
         destruct (GitContentService.verifyRepository env h self) as [[out st] evs']
     end; unfold outcome, events; cbn; intros (res & -> & Hsucc & Hissues); cbn.
  1: destruct (GitContentService.isValid res) eqn:Hres; cli.
  2: listed.
  all: split; [first [left; reflexivity | right; reflexivity]|].
  all: split; [intros o e H; first [reflexivity | impossible]|].
  all: intros H; try discriminate H.
  destruct (Hsucc eq_refl) as (_ & remote & remotes & Hremotes).
  do 3 eexists. right. rewrite !in_app_iff. do 4 left.
  exact (injected_call _ _ _ Hremotes).
Qed.


(** X27: with [--submodule], the init command asks, in this order, for
    three runs of git (submodule add with the repository and the path as
    given, submodule init, submodule update) and the writing of the
    configuration file.  Either all four are fulfilled and it returns, or
    it stops at the first that is rejected, which is then the last
    operation and the only rejected one, and exits with code 1.  In either
    case it asks for nothing else: it builds no service and does not call
    [initialize]. *)
Theorem init_command_submodule w past options :
  let run := Cli.init options w past tt in
  let operations :=
    [Exec ("git submodule add " ++ InitOptions.repo options ++ " "
           ++ InitOptions.path options);
     Exec "git submodule init";
     Exec "git submodule update";
     WriteJson ".ceres-sync.json" (initConfig w options) 2] in
  truthy (InitOptions.submodule options) = true ->
  (ending run = Returned tt /\
   asked (happenings run) = operations /\
   forall o e, ~ In (Asked o (Rejected e)) (happenings run)) \/
  (exists before o after e,
     operations = (before ++ o :: after)%list /\
     asked (happenings run) = (before ++ [o])%list /\
     In (Asked o (Rejected e)) (happenings run) /\
     (forall o' e', In (Asked o' (Rejected e')) (happenings run) -> o' = o) /\
     ending run = Exited 1).
Proof.
  unfold Cli.init. cli. intros ->. cli.
  repeat told.
  1: left; split; [reflexivity|]; split; [reflexivity|];
     intros o e H; cbn in H; sift.
  all: right.
  1: eexists [_; _; _], _, [], _.
  2: eexists [_; _], _, [_], _.
  3: eexists [_], _, [_; _], _.
  4: eexists [], _, [_; _; _], _.
  all: split; [reflexivity|]; split; [reflexivity|].
  all: split; [cbn; auto 10|].
  all: split; [intros o' e' H; cbn in H; sift; reflexivity|reflexivity].
Qed.

Lemma stdout_app newer older :
  stdout (newer ++ older)%list = (stdout older ++ stdout newer)%list.
Proof.
  unfold stdout. rewrite flat_map_app, rev_app_distr. reflexivity.
Qed.

Lemma stdout_of_lines {A} (text : A -> string) array :
  stdout (rev (map (fun x => Printed (text x)) array)) = map text array.
Proof.
  induction array as [|x rest IH]; [reflexivity|].
  cbn [map rev]. rewrite stdout_app, IH. reflexivity.
Qed.

Lemma stdout_line line older : stdout (Printed line :: older) = (stdout older ++ [line])%list.
Proof.
  reflexivity.
Qed.

Lemma stdout_one line : stdout [Printed line] = [line].
Proof.
  reflexivity.
Qed.

(** X23: when the sync command returns, a pull from origin was fulfilled,
    and the last lines on the standard output are the number of pulled
    files followed by one line for each of them, or the notice that the
    content is up to date when the pull brought no file. *)
Theorem sync_command_lists_pulled_files w past options :
  let run := Cli.sync options w past tt in
  ending run = Returned tt ->
  exists git branch pulled before,
    In (Asked (Known (Pull git "origin" branch)) (Fulfilled pulled)) (happenings run) /\
    stdout (happenings run) =
      (before ++
       match pull_files pulled with
       | [] => [paint w green "✅ Content is already up to date"]
       | files =>
           paint w green ("✅ Synchronized " ++ showNat (length files) ++ " files:")
           :: map (fun file => paint w gray ("  - " ++ file)) files
       end)%list.
Proof.
  unfold Cli.sync.
  remember stdout as written eqn:Hwritten.
  cli.
  loaded.
  1: built.
  1: unfold callOn;
     match goal with
     | |- context [RainfallContentSyncService.sync ?env ?h ?self] =>
         generalize (RainfallContentSyncServiceMore.sync_for_its_caller env h self);
         destruct (RainfallContentSyncService.sync env h self) as [[out st] evs']
     end; unfold outcome, events; cbn; intros (res & -> & Hsucc); cbn.
  1: destruct (RainfallContentSyncService.success res) eqn:Hres; cli.
  1: destruct (RainfallContentSyncService.changes res) eqn:Hch; cli.
  2, 3: listed.
  all: intros H; try discriminate H.
  all: destruct (Hsucc eq_refl) as (_ & pulled & Hpull & Hfiles).
  all: pose proof (injected_call _ _ _ Hpull) as Hseen.
  all: match type of Hseen with
       | In (Asked (Known (Pull ?g _ ?b)) _) _ => exists g, b, pulled
       end.
  all: rewrite <- Hfiles.
  all: eexists; split; [rewrite ?in_app_iff; cbn [In]; rewrite ?in_app_iff; tauto|].
  all: subst written.
  - apply stdout_line.
  - rewrite !stdout_app, stdout_of_lines, !stdout_one.
    rewrite !app_assoc.
    rewrite <- (app_assoc _ [_] (map _ _)), <- (app_assoc _ [_] ([_] ++ _)).
    reflexivity.
Qed.

Lemma loadConfig_accepts_example :
  ending (loadConfig ".ceres-sync.json" (wideWorld calm) [] tt) =
    Returned {| ceresRepositoryUrl := "https://example/repo.git";
                localContentPath := "./out";
                branch := RainfallContentSyncService.Present (Some "main");
                autoCommit := RainfallContentSyncService.Absent;
                includePaths := RainfallContentSyncService.Absent;
                excludePaths := RainfallContentSyncService.Absent;
                verbose := RainfallContentSyncService.Absent |} /\
  asked (happenings (loadConfig ".ceres-sync.json" (wideWorld calm) [] tt)) =
    [PathExists ".ceres-sync.json"; ReadJson ".ceres-sync.json"].
Proof.
  destruct (loadConfig_validates (wideWorld calm) [] ".ceres-sync.json")
    as (_ & _ & Hreturns & Hreturned).
  destruct (Hreturns parsedExample ltac:(vm_compute; auto) eq_refl eq_refl)
    as [config Hconfig].
  destruct (Hreturned config Hconfig) as (Hasked & _).
  split; [|exact Hasked].
  rewrite Hconfig. vm_compute in Hconfig. symmetry. exact Hconfig.
Defined.

Lemma init_as_submodule :
  ending (Cli.init initAsSubmodule (wideWorld calm) [] tt) = Returned tt /\
  asked (happenings (Cli.init initAsSubmodule (wideWorld calm) [] tt)) =
    [Exec "git submodule add https://github.com/rainfall-one/ceres.git ./shared-content";
     Exec "git submodule init";
     Exec "git submodule update";
     WriteJson ".ceres-sync.json" (initConfig (wideWorld calm) initAsSubmodule) 2].
Proof.
  destruct (init_command_submodule (wideWorld calm) [] initAsSubmodule eq_refl)
    as [(Hreturned & Hasked & _) | (before & o & after & e & _ & _ & Hrejected & _)].
  - split; [exact Hreturned | exact Hasked].
  - vm_compute in Hrejected. sift.
Defined.

Lemma sync_command_lists_two_files :
  exists git branch pulled before,
    In (Asked (Known (Pull git "origin" branch)) (Fulfilled pulled))
       (happenings (Cli.sync syncQuietly (wideWorld remoteHasNews) [] tt)) /\
    stdout (happenings (Cli.sync syncQuietly (wideWorld remoteHasNews) [] tt)) =
      (before ++
       match pull_files pulled with
       | [] => ["✅ Content is already up to date"]
       | files =>
           ("✅ Synchronized " ++ showNat (length files) ++ " files:")%string
           :: map (fun file => "  - " ++ file)%string files
       end)%list.
Proof.
  exact (sync_command_lists_pulled_files (wideWorld remoteHasNews) [] syncQuietly
           ltac:(vm_compute; reflexivity)).
Defined.

End CliFacts.
